(** * Deploy runner invoker: the request validator, the container-override
      builder, the task submitter and the Lambda handler of
      [modules/deploy-runner-invoker/lambda/invoker.py]. *)

From Stdlib Require Import ZArith List Ascii String DecimalString Lia.
From stdpp Require Import base option list strings gmap.

Import ListNotations.
Local Open Scope string_scope.

(** ** Python values

    A Lambda event is decoded JSON.  [pyval] has the values such a document
    can hold (numbers are integers); a [str] is a sequence of code points
    below 256, one [ascii] each; a nested [dict] has [str] keys and keeps
    its insertion order. *)

#[warnings="-register-all"]
Inductive pyval : Type :=
| PNone
| PBool (b : bool)
| PInt (z : Z)
| PStr (s : string)
| PList (l : list pyval)
| PDict (d : list (string * pyval)).

(** Truth value of an object, as tested by [if x], [not x], [x and y]. *)
Definition py_truthy (v : pyval) : bool :=
  match v with
  | PNone => false
  | PBool b => b
  | PInt z => negb (Z.eqb z 0)
  | PStr s => negb (String.eqb s "")
  | PList l => match l with [] => false | _ => true end
  | PDict d => match d with [] => false | _ => true end
  end.

(** [v == s] for a [str] literal [s]: only an equal [str] compares equal. *)
Definition py_eq_str (v : pyval) (s : string) : bool :=
  match v with
  | PStr t => String.eqb t s
  | _ => false
  end.

(** [v in l] for a list [l] of [str]: a linear scan with [==]. *)
Definition py_in_list (v : pyval) (l : list string) : bool :=
  existsb (py_eq_str v) l.

(** The entry of key [k] in a dict kept in insertion order. *)
Fixpoint assoc {A : Type} (k : string) (d : list (string * A)) : option A :=
  match d with
  | [] => None
  | (k', a) :: d' => if String.eqb k k' then Some a else assoc k d'
  end.

(** The member [k] of a value, when the value is a dict that has it. *)
Definition member (k : string) (v : pyval) : option pyval :=
  match v with
  | PDict d => assoc k d
  | _ => None
  end.

(** ** Text rendering: [repr], [str] and [json.dumps] *)

Module Text.

Definition dquote : ascii := ascii_of_nat 34.
Definition squote : ascii := ascii_of_nat 39.
Definition backslash : ascii := ascii_of_nat 92.

Definition chr (c : ascii) : string := String c EmptyString.

Definition hex_digit (n : nat) : ascii :=
  if Nat.ltb n 10 then ascii_of_nat (48 + n) else ascii_of_nat (87 + n).

Definition hex2 (n : nat) : string :=
  String (hex_digit (Nat.div n 16)) (chr (hex_digit (Nat.modulo n 16))).

Fixpoint contains_char (c : ascii) (s : string) : bool :=
  match s with
  | EmptyString => false
  | String a r => Ascii.eqb a c || contains_char c r
  end.

Fixpoint flat_map_chars (f : ascii -> string) (s : string) : string :=
  match s with
  | EmptyString => EmptyString
  | String a r => f a +:+ flat_map_chars f r
  end.

Fixpoint join (sep : string) (l : list string) : string :=
  match l with
  | [] => ""
  | [x] => x
  | x :: r => x +:+ sep +:+ join sep r
  end.

(** Code points of Latin-1 that [str.isprintable] accepts. *)
Definition printable (n : nat) : bool :=
  if Nat.ltb n 32 then false
  else if Nat.ltb n 127 then true
  else if Nat.ltb n 161 then false
  else negb (Nat.eqb n 173).

(** [repr(s)] for a [str]: single quotes unless the text has a single
    quote and no double quote; the quote and the backslash are escaped,
    tab, newline and carriage return have their letters, any other
    non-printable code point is written [\xNN]. *)
Definition repr_char (quote : ascii) (c : ascii) : string :=
  let n := nat_of_ascii c in
  if Ascii.eqb c quote || Ascii.eqb c backslash then String backslash (chr c)
  else if Nat.eqb n 9 then String backslash "t"
  else if Nat.eqb n 10 then String backslash "n"
  else if Nat.eqb n 13 then String backslash "r"
  else if printable n then chr c
  else String backslash ("x" +:+ hex2 n).

Definition repr_str (s : string) : string :=
  let quote :=
    if contains_char squote s && negb (contains_char dquote s)
    then dquote else squote in
  String quote (flat_map_chars (repr_char quote) s +:+ chr quote).

Definition str_of_Z (z : Z) : string := NilZero.string_of_int (Z.to_int z).

Fixpoint repr (v : pyval) : string :=
  match v with
  | PNone => "None"
  | PBool true => "True"
  | PBool false => "False"
  | PInt z => str_of_Z z
  | PStr s => repr_str s
  | PList l => "[" +:+ join ", " (List.map repr l) +:+ "]"
  | PDict d =>
      "{" +:+ join ", "
                (List.map (fun kv => match kv with
                                     | (k, x) => repr_str k +:+ ": " +:+ repr x
                                     end) d)
          +:+ "}"
  end.

(** [str(v)], which is what an f-string field [{v}] inserts. *)
Definition str (v : pyval) : string :=
  match v with
  | PStr s => s
  | _ => repr v
  end.

(** [json.dumps] with its defaults ([ensure_ascii], separators [", "]
    and [": "]). *)
Definition json_char (c : ascii) : string :=
  let n := nat_of_ascii c in
  if Ascii.eqb c dquote || Ascii.eqb c backslash then String backslash (chr c)
  else if Nat.eqb n 8 then String backslash "b"
  else if Nat.eqb n 9 then String backslash "t"
  else if Nat.eqb n 10 then String backslash "n"
  else if Nat.eqb n 12 then String backslash "f"
  else if Nat.eqb n 13 then String backslash "r"
  else if Nat.leb 32 n && Nat.leb n 126 then chr c
  else String backslash ("u00" +:+ hex2 n).

Definition json_str (s : string) : string :=
  String dquote (flat_map_chars json_char s +:+ chr dquote).

Fixpoint json_dumps (v : pyval) : string :=
  match v with
  | PNone => "null"
  | PBool true => "true"
  | PBool false => "false"
  | PInt z => str_of_Z z
  | PStr s => json_str s
  | PList l => "[" +:+ join ", " (List.map json_dumps l) +:+ "]"
  | PDict d =>
      "{" +:+ join ", "
                (List.map (fun kv => match kv with
                                     | (k, x) => json_str k +:+ ": " +:+ json_dumps x
                                     end) d)
          +:+ "}"
  end.

(** [s.split(sep)] for a one-character separator. *)
Fixpoint split (sep : ascii) (s : string) : list string :=
  match s with
  | EmptyString => [EmptyString]
  | String c r =>
      if Ascii.eqb c sep then EmptyString :: split sep r
      else match split sep r with
           | [] => [chr c]
           | h :: t => String c h :: t
           end
  end.

End Text.

(** ** Exceptions

    An exception is kept as its class and the text [str(e)] gives. *)

Inductive exn : Type := PyExn (cls : string) (msg : string).

Definition exn_str (e : exn) : string :=
  match e with PyExn _ msg => msg end.

Inductive result (A : Type) : Type :=
| Ok (a : A)
| Raise (e : exn).

Arguments Ok {A} a.
Arguments Raise {A} e.

Definition type_name (v : pyval) : string :=
  match v with
  | PNone => "NoneType"
  | PBool _ => "bool"
  | PInt _ => "int"
  | PStr _ => "str"
  | PList _ => "list"
  | PDict _ => "dict"
  end.

Definition py_hashable (v : pyval) : bool :=
  match v with
  | PList _ | PDict _ => false
  | _ => true
  end.

(** Looking a key up in a dict whose keys are [str] ([v in d], [d.get(v)]):
    the key is hashed first, which a list or a dict refuses with a
    [TypeError] (worded here as CPython 3.9 to 3.13 word it); a hashable
    key that is not a [str] is never found. *)
Definition dict_find {A : Type} (d : list (string * A)) (v : pyval)
  : result (option A) :=
  if py_hashable v then
    match v with
    | PStr s => Ok (assoc s d)
    | _ => Ok None
    end
  else Raise (PyExn "TypeError" ("unhashable type: '" +:+ type_name v +:+ "'")).

(** ** The request: a dict with [str] keys *)

Abbreviation request := (gmap string pyval).

(** [event.get(k)] and [event.get(k, d)]. *)
Definition get (event : request) (k : string) : pyval :=
  default PNone (event !! k).

Definition get_or (event : request) (k : string) (d : pyval) : pyval :=
  default d (event !! k).

(** ** The response of the backend's run-task operation, as the client
    library decodes it: every member is optional, a task descriptor has
    [str] members, a failure descriptor is a dict. *)

Record task_descr : Type := {
  taskArn : option string;
  lastStatus : option string
}.

Record run_task_response : Type := {
  tasks : option (list task_descr);
  failures : option (list pyval)
}.

(** What [start_ecs_task] returns. *)
Record task_info : Type := {
  task_arn : string;
  task_id : string;
  cluster_arn : string;
  status : string
}.

(** ** The override builder *)

Definition build_container_overrides (event : request) : list pyval :=
  let task_type := get event "task_type" in
  let overrides : list pyval := [] in
  if py_eq_str task_type "docker_builder" then
    let app_name := get_or event "app_name" (PStr "") in
    let git_ref := get_or event "git_ref" (PStr "main") in
    let ecr_repo := get_or event "ecr_repository" (PStr "") in
    let dockerfile := get_or event "dockerfile" (PStr "Dockerfile") in
    let command :=
      [ PStr "--context";
        PStr ("git://github.com/lightwave-media/" +:+ Text.str app_name
              +:+ ".git#" +:+ Text.str git_ref);
        PStr "--dockerfile"; dockerfile;
        PStr "--destination";
        PStr (Text.str ecr_repo +:+ ":" +:+ Text.str git_ref);
        PStr "--destination";
        PStr (Text.str ecr_repo +:+ ":latest");
        PStr "--cache=true" ] in
    overrides ++ [PDict [("name", PStr "kaniko"); ("command", PList command)]]
  else if py_eq_str task_type "terraform_runner" then
    let operation := get_or event "operation" (PStr "plan") in
    let working_dir := get_or event "working_dir" (PStr ".") in
    let command :=
      "cd " +:+ Text.str working_dir +:+ " && terragrunt "
      +:+ Text.str operation +:+ " --terragrunt-non-interactive" in
    overrides
      ++ [PDict [("name", PStr "terraform"); ("command", PList [PStr command])]]
  else if py_eq_str task_type "app_deployer" then
    let app_name := get_or event "app_name" (PStr "") in
    let git_ref := get_or event "git_ref" (PStr "main") in
    let environment := get_or event "environment" (PStr "prod") in
    let ecr_repo := get_or event "ecr_repository" (PStr "") in
    let ecs_cluster := get_or event "ecs_cluster" (PStr "") in
    let ecs_service := get_or event "ecs_service" (PStr "") in
    let env_vars :=
      [ PDict [("name", PStr "APP_NAME"); ("value", app_name)];
        PDict [("name", PStr "GIT_REF"); ("value", git_ref)];
        PDict [("name", PStr "ENVIRONMENT"); ("value", environment)];
        PDict [("name", PStr "ECR_REPOSITORY"); ("value", ecr_repo)];
        PDict [("name", PStr "ECS_CLUSTER"); ("value", ecs_cluster)];
        PDict [("name", PStr "ECS_SERVICE"); ("value", ecs_service)] ] in
    overrides
      ++ [PDict [("name", PStr "deployer"); ("environment", PList env_vars)]]
  else overrides.

Section Invoker.

(** [os.environ] when the module is loaded. *)
Variable environ : gmap string string.

(** The orchestration backend: its state, and what one run-task call with
    the given keyword arguments answers (a decoded response, or an
    exception of the client) and leaves behind. *)
Variable backend : Type.
Variable run_task : pyval -> backend -> result run_task_response * backend.

Definition environ_get (k d : string) : string := default d (environ !! k).

Definition CLUSTER_ARN : string := environ_get "CLUSTER_ARN" "".
Definition SUBNET_IDS : list string :=
  Text.split "," (environ_get "SUBNET_IDS" "").
Definition SECURITY_GROUP_IDS : list string :=
  Text.split "," (environ_get "SECURITY_GROUP_IDS" "").

Definition TASK_DEFINITIONS : list (string * string) :=
  [ ("docker_builder", environ_get "DOCKER_BUILDER_TASK_ARN" "");
    ("terraform_runner", environ_get "TERRAFORM_RUNNER_TASK_ARN" "");
    ("app_deployer", environ_get "APP_DEPLOYER_TASK_ARN" "") ].

Definition ALLOWED_APPS : list string :=
  Text.split ","
    (environ_get "ALLOWED_APPS" "cineos,photographos,createos,lightwave-backend").

Definition ALLOWED_OPERATIONS : list string :=
  ["build"; "deploy"; "plan"; "apply"].

Definition str_list (l : list string) : string :=
  Text.str (PList (List.map PStr l)).

(** *** The validator *)

Definition required_fields : list string := ["task_type"].

Definition validate_request (event : request) : result (bool * string) :=
  match List.find (fun field => negb (bool_decide (is_Some (event !! field))))
                  required_fields with
  | Some field => Ok (false, "Missing required field: " +:+ field)
  | None =>
      let task_type := get event "task_type" in
      match dict_find TASK_DEFINITIONS task_type with
      | Raise e => Raise e
      | Ok None =>
          Ok (false,
              "Invalid task_type: " +:+ Text.str task_type
              +:+ ". Must be one of: "
              +:+ str_list (List.map fst TASK_DEFINITIONS))
      | Ok (Some _) =>
          let app_name := get event "app_name" in
          if py_truthy app_name && negb (py_in_list app_name ALLOWED_APPS)
          then Ok (false,
                   "App not allowed: " +:+ Text.str app_name
                   +:+ ". Allowed apps: " +:+ str_list ALLOWED_APPS)
          else
            let operation := get event "operation" in
            if py_truthy operation
               && negb (py_in_list operation ALLOWED_OPERATIONS)
            then Ok (false,
                     "Operation not allowed: " +:+ Text.str operation
                     +:+ ". Allowed: " +:+ str_list ALLOWED_OPERATIONS)
            else Ok (true, "")
      end
  end.

(** *** Calls to the backend

    A computation may raise and may call the backend; the calls made
    are recorded in order next to the backend's state. *)

Record world : Type := {
  ecs : backend;
  calls : list pyval
}.

Definition M (A : Type) : Type := world -> result A * world.

Definition ret {A : Type} (a : A) : M A := fun w => (Ok a, w).

Definition raise {A : Type} (e : exn) : M A := fun w => (Raise e, w).

Definition bind {A B : Type} (m : M A) (k : A -> M B) : M B :=
  fun w =>
    match m w with
    | (Ok a, w') => k a w'
    | (Raise e, w') => (Raise e, w')
    end.

Definition lift {A : Type} (r : result A) : M A := fun w => (r, w).

(** [try: m  except Exception as e: h e] *)
Definition try_except {A : Type} (m : M A) (h : exn -> M A) : M A :=
  fun w =>
    match m w with
    | (Ok a, w') => (Ok a, w')
    | (Raise e, w') => h e w'
    end.

Local Notation "x <~ m ;; k" := (bind m (fun x => k))
  (at level 20, m at level 99, k at level 200, only parsing).

(** [ecs_client.run_task] called with the keyword arguments [kwargs]. *)
Definition ecs_client_run_task (kwargs : pyval) : M run_task_response :=
  fun w =>
    let (r, b) := run_task kwargs (ecs w) in
    (r, {| ecs := b; calls := calls w ++ [kwargs] |}).

(** *** The submitter *)

Definition opt_str (o : option string) : pyval :=
  match o with
  | Some s => PStr s
  | None => PNone
  end.

Definition run_task_kwargs (event : request) (task_definition_arn : pyval)
           (container_overrides : list pyval) : pyval :=
  let task_type := get event "task_type" in
  PDict
    [ ("cluster", PStr CLUSTER_ARN);
      ("taskDefinition", task_definition_arn);
      ("launchType", PStr "FARGATE");
      ("networkConfiguration",
        PDict [("awsvpcConfiguration",
                 PDict [("subnets", PList (List.map PStr SUBNET_IDS));
                        ("securityGroups",
                          PList (List.map PStr SECURITY_GROUP_IDS));
                        ("assignPublicIp", PStr "DISABLED")])]);
      ("overrides",
        PDict [("containerOverrides", PList container_overrides)]);
      ("tags",
        PList
          [ PDict [("key", PStr "TaskType"); ("value", task_type)];
            PDict [("key", PStr "AppName");
                   ("value", get_or event "app_name" (PStr "n/a"))];
            PDict [("key", PStr "GitRef");
                   ("value", get_or event "git_ref" (PStr "n/a"))];
            PDict [("key", PStr "TriggeredBy");
                   ("value", get_or event "triggered_by" (PStr "lambda"))] ])
    ].

Definition start_ecs_task (event : request) : M task_info :=
  let task_type := get event "task_type" in
  found <~ lift (dict_find TASK_DEFINITIONS task_type) ;;
  let task_definition_arn := opt_str found in
  let container_overrides := build_container_overrides event in
  response <~ ecs_client_run_task
                (run_task_kwargs event task_definition_arn container_overrides) ;;
  match default [] (tasks response) with
  | [] =>
      let failures := default [] (failures response) in
      raise (PyExn "Exception"
               ("Failed to start ECS task: " +:+ Text.str (PList failures)))
  | task :: _ =>
      let task_arn := default "" (taskArn task) in
      let task_id :=
        if py_truthy (PStr task_arn)
        then List.last (Text.split "/" task_arn) ""
        else "" in
      ret {| task_arn := task_arn;
             task_id := task_id;
             cluster_arn := CLUSTER_ARN;
             status := default "PENDING" (lastStatus task) |}
  end.

(** *** The handler

    The [logger] calls are left out: they write to the log only, and on a
    decoded-JSON event none of the texts they format can raise. *)

Definition response (statusCode : Z) (body : list (string * pyval)) : pyval :=
  PDict [("statusCode", PInt statusCode);
         ("body", PStr (Text.json_dumps (PDict body)))].

Definition handler (event : request) (context : pyval) : M pyval :=
  try_except
    (v <~ lift (validate_request event) ;;
     let '(is_valid, error_message) := v in
     if negb is_valid then
       ret (response 400 [("success", PBool false);
                          ("error", PStr error_message)])
     else
       result <~ start_ecs_task event ;;
       ret (response 200
              [("success", PBool true);
               ("task_arn", PStr (task_arn result));
               ("task_id", PStr (task_id result));
               ("cluster_arn", PStr (cluster_arn result));
               ("status", PStr (status result));
               ("message", PStr ("ECS task started: " +:+ task_id result))]))
    (fun e =>
       ret (response 500 [("success", PBool false);
                          ("error", PStr (exn_str e))])).

End Invoker.

Arguments ecs {backend} w.
Arguments calls {backend} w.
Arguments Build_world {backend} ecs calls.

(** ** Notions the statements use *)

(** [seg] is the trailing path segment of [path]: it holds no "/" and
    [path] is [seg] itself or ends in "/" followed by [seg]. *)
Definition trailing_segment (path seg : string) : Prop :=
  Text.contains_char "/" seg = false
  /\ exists pre, path = pre +:+ seg /\ (pre = "" \/ exists p, pre = p +:+ "/").

(** [needle] occurs inside [text]. *)
Definition occurs_in (needle text : string) : Prop :=
  exists pre post, text = pre +:+ needle +:+ post.

(** The three task kinds of the policy, in the order the table lists them. *)
Definition task_kinds : list string :=
  ["docker_builder"; "terraform_runner"; "app_deployer"].

(** The verdict of the validator's last check, the one on [operation]. *)
Definition operation_verdict (event : request) : result (bool * string) :=
  let operation := get event "operation" in
  if py_truthy operation && negb (py_in_list operation ALLOWED_OPERATIONS)
  then Ok (false,
           "Operation not allowed: " +:+ Text.str operation
           +:+ ". Allowed: " +:+ str_list ALLOWED_OPERATIONS)
  else Ok (true, "").

(** The world after one call with [kwargs] that left the backend in [b]. *)
Definition called {backend : Type} (w : world backend) (kwargs : pyval)
           (b : backend) : world backend :=
  {| ecs := b; calls := calls w ++ [kwargs] |}.

(** One environment assignment of a container override. *)
Definition env_entry (name : string) (value : pyval) : pyval :=
  PDict [("name", PStr name); ("value", value)].

(** ** Sample requests and backends *)

Definition no_environ : gmap string string := ∅.

Definition terraform_apply : request :=
  {[ "task_type" := PStr "terraform_runner";
     "operation" := PStr "apply";
     "working_dir" := PStr "infra/prod" ]}.

Definition terraform_bare : request :=
  {[ "task_type" := PStr "terraform_runner" ]}.

Definition build_foo : request :=
  {[ "task_type" := PStr "docker_builder";
     "app_name" := PStr "foo";
     "ecr_repository" := PStr "123.dkr/foo" ]}.

Definition deploy_full : request :=
  {[ "task_type" := PStr "app_deployer";
     "app_name" := PStr "cineos";
     "git_ref" := PStr "v1.2";
     "environment" := PStr "staging";
     "ecr_repository" := PStr "123.dkr/cineos";
     "ecs_cluster" := PStr "main";
     "ecs_service" := PStr "web" ]}.

Definition unknown_kind_bad_app : request :=
  {[ "task_type" := PStr "zzz"; "app_name" := PStr "evil" ]}.

Definition list_kind : request := {[ "task_type" := PList [] ]}.

Definition list_app : request :=
  {[ "task_type" := PStr "docker_builder"; "app_name" := PList [PStr "x"] ]}.

Definition build_evil : request :=
  {[ "task_type" := PStr "docker_builder"; "app_name" := PStr "evil" ]}.

Definition build_empty_app : request :=
  {[ "task_type" := PStr "docker_builder"; "app_name" := PStr "" ]}.

Definition build_main : request :=
  {[ "task_type" := PStr "docker_builder"; "git_ref" := PStr "main" ]}.

Definition build_release : request :=
  {[ "task_type" := PStr "docker_builder"; "git_ref" := PStr "release" ]}.

Definition only_app : request := {[ "app_name" := PStr "cineos" ]}.

(** A backend that counts its calls and starts nothing. *)
Definition no_capacity : run_task_response :=
  {| tasks := Some [];
     failures := Some [PDict [("arn", PStr "x");
                              ("reason", PStr "RESOURCE:MEMORY")]] |}.

Definition refusing (kwargs : pyval) (n : nat)
  : result run_task_response * nat :=
  (Ok no_capacity, S n).

Definition fresh : world nat := {| ecs := 0; calls := [] |}.

(** A backend that starts one task and reports no status for it. *)
Definition started : run_task_response :=
  {| tasks := Some [{| taskArn := Some "arn:aws:ecs:eu-west-1:42:task/runners/0f3a";
                       lastStatus := None |}];
     failures := Some [] |}.

Definition starting (kwargs : pyval) (n : nat)
  : result run_task_response * nat :=
  (Ok started, S n).

(** A backend whose answer has neither [tasks] nor [failures]. *)
Definition silent (kwargs : pyval) (n : nat)
  : result run_task_response * nat :=
  (Ok {| tasks := None; failures := None |}, S n).

(** A backend whose client raises. *)
Definition failing (kwargs : pyval) (n : nat)
  : result run_task_response * nat :=
  (Raise (PyExn "ClientError" "AccessDeniedException"), S n).

(** ** What the validator accepts

    [acceptable environ event]: [task_type] is one of the three kinds, and
    each of [app_name] and [operation] is absent, falsy, or allowed. *)
Definition acceptable (environ : gmap string string) (event : request) : Prop :=
  (exists k, event !! "task_type" = Some (PStr k) /\ In k task_kinds)
  /\ (py_truthy (get event "app_name") = true ->
      exists a, get event "app_name" = PStr a /\ In a (ALLOWED_APPS environ))
  /\ (py_truthy (get event "operation") = true ->
      exists o, get event "operation" = PStr o /\ In o ALLOWED_OPERATIONS).

(** * The bucket clean-up script, [scripts/cleanup-s3-bucket.py] *)

Module Cleanup.

(** An entry of [Versions] or of [DeleteMarkers]. *)
Record object_version : Type := {
  Key : string;
  VersionId : string
}.

(** One page of [list_object_versions]; either member may be missing. *)
Record page : Type := {
  Versions : option (list object_version);
  DeleteMarkers : option (list object_version)
}.

(** The lines the script prints, one constructor for each [print]. *)
Inductive line : Type :=
| Deleting (bucket : string)
| DeletedVersion (key version : string)
| DeletedMarker (key version : string)
| Summary (delete_count : nat)
| Usage
| NowEmpty (bucket : string)
| Error (message : string).

Section Script.

(** The object store; opening a session and a client for a profile; the
    pages the paginator yields for a bucket, in order, a failed fetch being
    an exception in their place; and one [delete_object] request. *)
Variable store : Type.
Variable connect : string -> result unit.
Variable listing : string -> list (result page).
Variable delete_object :
  string -> string -> string -> store -> result unit * store.

(** The store, the [delete_object] requests sent so far, and the output. *)
Record state : Type := {
  s3 : store;
  requests : list (string * object_version);
  stdout : list line
}.

(** [print(...)]: the line is appended to the output.  Standard output is
    taken to accept every line; a stream that refuses one is not
    modelled. *)
Definition print (l : line) (st : state) : state :=
  {| s3 := s3 st; requests := requests st; stdout := stdout st ++ [l] |}.

(** [for version in entries: s3.delete_object(...); delete_count += 1;
    print(...)] *)
Fixpoint delete_entries (bucket : string) (report : string -> string -> line)
         (entries : list object_version) (delete_count : nat) (st : state)
  : result nat * state :=
  match entries with
  | [] => (Ok delete_count, st)
  | version :: rest =>
      let (r, s') :=
        delete_object bucket (Key version) (VersionId version) (s3 st) in
      let st' := {| s3 := s';
                    requests := requests st ++ [(bucket, version)];
                    stdout := stdout st |} in
      match r with
      | Raise e => (Raise e, st')
      | Ok _ =>
          delete_entries bucket report rest (S delete_count)
            (print (report (Key version) (VersionId version)) st')
      end
  end.

(** [if member in page: for ... in page[member]: ...] *)
Definition delete_member (bucket : string) (report : string -> string -> line)
           (member : option (list object_version)) (delete_count : nat)
           (st : state) : result nat * state :=
  match member with
  | Some entries => delete_entries bucket report entries delete_count st
  | None => (Ok delete_count, st)
  end.

(** [for page in pages: ...] *)
Fixpoint delete_pages (bucket : string) (pages : list (result page))
         (delete_count : nat) (st : state) : result nat * state :=
  match pages with
  | [] => (Ok delete_count, st)
  | Raise e :: _ => (Raise e, st)
  | Ok page :: rest =>
      match delete_member bucket DeletedVersion (Versions page)
              delete_count st with
      | (Raise e, st1) => (Raise e, st1)
      | (Ok count1, st1) =>
          match delete_member bucket DeletedMarker (DeleteMarkers page)
                  count1 st1 with
          | (Raise e, st2) => (Raise e, st2)
          | (Ok count2, st2) => delete_pages bucket rest count2 st2
          end
      end
  end.

Definition delete_all_versions (bucket_name profile_name : string)
           (st : state) : result nat * state :=
  match connect profile_name with
  | Raise e => (Raise e, st)
  | Ok _ =>
      match delete_pages bucket_name (listing bucket_name) 0
              (print (Deleting bucket_name) st) with
      | (Raise e, st') => (Raise e, st')
      | (Ok delete_count, st') =>
          (Ok delete_count, print (Summary delete_count) st')
      end
  end.

(** The script body: the exit status and the state it leaves. *)
Definition main (argv : list string) (st : state) : Z * state :=
  if negb (Nat.eqb (length argv) 3) then (1%Z, print Usage st)
  else
    let bucket := nth 1 argv "" in
    let profile := nth 2 argv "" in
    match delete_all_versions bucket profile st with
    | (Ok _, st') => (0%Z, print (NowEmpty bucket) st')
    | (Raise e, st') => (1%Z, print (Error (exn_str e)) st')
    end.

End Script.

Arguments s3 {store} s.
Arguments requests {store} s.
Arguments stdout {store} s.
Arguments Build_state {store} s3 requests stdout.

(** The entries of a page in the order the script takes them. *)
Definition page_entries (p : page) : list object_version :=
  (default [] (Versions p) ++ default [] (DeleteMarkers p))%list.

(** The [delete_object] requests a listing without failed fetch calls for. *)
Definition plan (bucket : string) (pages : list page)
  : list (string * object_version) :=
  List.map (pair bucket) (List.concat (List.map page_entries pages)).

(** The pages fetched before the first failed fetch. *)
Fixpoint fetched (pages : list (result page)) : list page :=
  match pages with
  | Ok p :: rest => p :: fetched rest
  | _ => []
  end.

(** The lines reporting a deletion. *)
Definition is_deletion (l : line) : bool :=
  match l with
  | DeletedVersion _ _ | DeletedMarker _ _ => true
  | _ => false
  end.

End Cleanup.

(** * The health probes, [apps/health/views.py] *)

Module Health.

Record http_request : Type := { method : string }.

(** A response: its status and, for a [JsonResponse], the data it carries. *)
Record http_response : Type := {
  status_code : Z;
  data : option pyval
}.

Definition JsonResponse (d : pyval) (status : Z) : http_response :=
  {| status_code := status; data := Some d |}.

Definition HttpResponseNotAllowed : http_response :=
  {| status_code := 405%Z; data := None |}.

Section Views.

(** The database connection and the cache: running [SELECT 1] on a fresh
    cursor, [cache.set] and [cache.get]; each may raise. *)
Variable database : Type.
Variable cache_store : Type.
Variable select_1 : database -> result unit * database.
Variable cache_set :
  string -> pyval -> Z -> cache_store -> result unit * cache_store.
Variable cache_get : string -> cache_store -> result pyval * cache_store.

Record services : Type := {
  connection : database;
  cache : cache_store
}.

(** The decorator [require_GET]. *)
Definition require_GET (view : http_request -> services -> http_response * services)
           (request : http_request) (sv : services)
  : http_response * services :=
  if negb (String.eqb (method request) "GET")
  then (HttpResponseNotAllowed, sv)
  else view request sv.

Definition liveness : http_request -> services -> http_response * services :=
  require_GET
    (fun request sv =>
       (JsonResponse (PDict [("status", PStr "ok");
                             ("service", PStr "django-api")]) 200%Z, sv)).

Definition readiness : http_request -> services -> http_response * services :=
  require_GET
    (fun request sv =>
       let (selected, connection') := select_1 (connection sv) in
       let database_ok :=
         match selected with
         | Ok _ => true
         | Raise _ => false
         end in
       let (cache_ok, cache') :=
         match cache_set "health_check" (PStr "ok") 10%Z (cache sv) with
         | (Raise _, c) => (true, c)
         | (Ok _, c) =>
             match cache_get "health_check" c with
             | (Raise _, c') => (true, c')
             | (Ok v, c') => (py_eq_str v "ok", c')
             end
         end in
       let all_healthy := database_ok in
       let status_code := if all_healthy then 200%Z else 503%Z in
       (JsonResponse
          (PDict [("status",
                    PStr (if all_healthy then "healthy" else "unhealthy"));
                  ("checks", PDict [("database", PBool database_ok);
                                    ("cache", PBool cache_ok)])])
          status_code,
        {| connection := connection'; cache := cache' |})).

End Views.

Arguments connection {database cache_store} s.
Arguments cache {database cache_store} s.
Arguments Build_services {database cache_store} connection cache.

End Health.

(** ** Sample data for the clean-up script and the probes *)

Definition terraform_destroy : request :=
  {[ "task_type" := PStr "terraform_runner"; "operation" := PStr "destroy" ]}.

Definition terraform_apply_tagged : request :=
  <["triggered_by" := PStr "ci"]> terraform_apply.

Definition empty_allow_list : gmap string string :=
  {[ "ALLOWED_APPS" := "" ]}.

Definition version_a1 : Cleanup.object_version :=
  {| Cleanup.Key := "a"; Cleanup.VersionId := "1" |}.
Definition version_a2 : Cleanup.object_version :=
  {| Cleanup.Key := "a"; Cleanup.VersionId := "2" |}.
Definition marker_b : Cleanup.object_version :=
  {| Cleanup.Key := "b"; Cleanup.VersionId := "3" |}.

Definition two_pages : list Cleanup.page :=
  [ {| Cleanup.Versions := Some [version_a1; version_a2];
       Cleanup.DeleteMarkers := None |};
    {| Cleanup.Versions := None;
       Cleanup.DeleteMarkers := Some [marker_b] |} ].

Definition any_profile (profile : string) : result unit := Ok tt.

Definition two_page_listing (bucket : string)
  : list (result Cleanup.page) :=
  List.map Ok two_pages.

(** A store that counts the objects it deleted. *)
Definition deleting (bucket key version : string) (n : nat)
  : result unit * nat :=
  (Ok tt, S n).

(** A store that refuses to delete version "2". *)
Definition locked_2 (bucket key version : string) (n : nat)
  : result unit * nat :=
  if String.eqb version "2"
  then (Raise (PyExn "ClientError" "AccessDenied"), n)
  else (Ok tt, S n).

Definition untouched : Cleanup.state nat :=
  {| Cleanup.s3 := 0; Cleanup.requests := []; Cleanup.stdout := [] |}.

Definition get_request : Health.http_request := {| Health.method := "GET" |}.
Definition post_request : Health.http_request := {| Health.method := "POST" |}.

Definition database_down (d : unit) : result unit * unit :=
  (Raise (PyExn "OperationalError" "connection refused"), d).

Definition database_up (d : unit) : result unit * unit := (Ok tt, d).

(** A cache that stores one value, and one that cannot be reached. *)
Definition storing_set (key : string) (value : pyval) (timeout : Z)
           (c : option pyval) : result unit * option pyval :=
  (Ok tt, Some value).

Definition storing_get (key : string) (c : option pyval)
  : result pyval * option pyval :=
  (Ok (default PNone c), c).

Definition forgetting_set (key : string) (value : pyval) (timeout : Z)
           (c : option pyval) : result unit * option pyval :=
  (Ok tt, None).

Definition unreachable_set (key : string) (value : pyval) (timeout : Z)
           (c : option pyval) : result unit * option pyval :=
  (Raise (PyExn "ConnectionError" "redis down"), c).

Definition idle : Health.services unit (option pyval) :=
  {| Health.connection := tt; Health.cache := None |}.

(** * Properties *)

(** ** Text *)

Example repr_demo :
  Text.repr (PList [PStr "a'b"; PInt (-12); PDict [("k", PNone)]; PBool true])
  = Text.str (PStr "[") +:+ Text.chr Text.dquote +:+ "a'b" +:+ Text.chr Text.dquote
    +:+ ", -12, {'k': None}, True]".
Proof. vm_compute. reflexivity. Qed.

Example split_demo : Text.split "," "a,,b," = ["a"; ""; "b"; ""].
Proof. reflexivity. Qed.


Lemma append_nil_l (s : string) : "" +:+ s = s.
Proof. reflexivity. Qed.

Lemma append_cons (c : ascii) (a b : string) :
  String c a +:+ b = String c (a +:+ b).
Proof. reflexivity. Qed.

Ltac push_append := rewrite ?append_cons, ?append_nil_l.

Lemma append_nil_r (s : string) : s +:+ "" = s.
Proof.
  induction s as [|c s IH]; push_append; [reflexivity | f_equal; exact IH].
Qed.

Lemma append_assoc (a b c : string) : (a +:+ b) +:+ c = a +:+ b +:+ c.
Proof.
  induction a as [|x a IH]; push_append; [reflexivity | f_equal; exact IH].
Qed.

Lemma contains_char_append (c : ascii) (a b : string) :
  Text.contains_char c (a +:+ b)
  = Text.contains_char c a || Text.contains_char c b.
Proof.
  induction a as [|x a IH]; push_append; simpl; [reflexivity |].
  rewrite IH. now rewrite orb_assoc.
Qed.

Lemma split_cons (sep : ascii) (s : string) :
  exists h t, Text.split sep s = h :: t.
Proof.
  induction s as [|c s [h [t IH]]]; simpl; [now eauto |].
  destruct (Ascii.eqb c sep); [now eauto |].
  rewrite IH. eauto.
Qed.

Lemma join_cons2 (sep x y : string) (l : list string) :
  Text.join sep (x :: y :: l) = x +:+ sep +:+ Text.join sep (y :: l).
Proof. reflexivity. Qed.

(** Splitting and joining again gives the text back. *)
Lemma join_split (sep : ascii) (s : string) :
  Text.join (Text.chr sep) (Text.split sep s) = s.
Proof.
  induction s as [|c s IH]; [reflexivity |].
  destruct (split_cons sep s) as [h [t E]].
  cbn [Text.split]. rewrite E in *.
  destruct (Ascii.eqb_spec c sep) as [->|Hne].
  - rewrite join_cons2, IH. reflexivity.
  - destruct t as [|h' t].
    + cbn [Text.join] in *. now rewrite IH.
    + rewrite join_cons2, append_cons. rewrite join_cons2 in IH.
      now rewrite IH.
Qed.

(** No piece of a split holds the separator. *)
Lemma split_no_sep (sep : ascii) (s : string) :
  Forall (fun piece => Text.contains_char sep piece = false) (Text.split sep s).
Proof.
  induction s as [|c s IH]; simpl.
  - constructor; [reflexivity | constructor].
  - destruct (Ascii.eqb_spec c sep) as [->|Hne].
    + constructor; [reflexivity | exact IH].
    + destruct (Text.split sep s) as [|h t]; simpl.
      * constructor; [|constructor]. simpl.
        destruct (Ascii.eqb_spec c sep); [contradiction | reflexivity].
      * inversion IH as [|? ? Hh Ht]; subst.
        constructor; [|exact Ht]. simpl.
        destruct (Ascii.eqb_spec c sep); [contradiction | exact Hh].
Qed.

Lemma join_last (sep : string) (l : list string) :
  l <> [] ->
  exists pre, Text.join sep l = pre +:+ List.last l ""
              /\ (pre = "" \/ exists p, pre = p +:+ sep).
Proof.
  induction l as [|x l IH]; [congruence | intros _].
  destruct l as [|y l].
  - exists "". simpl. split; [reflexivity | now left].
  - destruct IH as [pre [E Hpre]]; [congruence |].
    exists (x +:+ sep +:+ pre). split.
    + change (Text.join sep (x :: y :: l))
        with (x +:+ sep +:+ Text.join sep (y :: l)).
      change (List.last (x :: y :: l) "") with (List.last (y :: l) "").
      rewrite E. now rewrite !append_assoc.
    + right. destruct Hpre as [->|[p ->]].
      * exists x. now rewrite append_nil_r.
      * exists (x +:+ sep +:+ p). now rewrite !append_assoc.
Qed.

(** The last piece of a path split at "/" is its trailing segment. *)
Lemma last_split_trailing (path : string) :
  trailing_segment path (List.last (Text.split "/" path) "").
Proof.
  destruct (split_cons "/" path) as [h [t E]].
  split.
  - pose proof (split_no_sep "/" path) as F. rewrite E in *.
    rewrite List.Forall_forall in F. apply F.
    destruct (@exists_last _ (h :: t)) as [l' [a Ha]]; [congruence |].
    rewrite Ha. rewrite last_last. apply in_or_app. right. now left.
  - destruct (join_last (Text.chr "/") (Text.split "/" path)) as [pre [J Hpre]].
    + rewrite E. congruence.
    + rewrite join_split in J. exists pre. split; [exact J | exact Hpre].
Qed.

(** Only the empty text is the trailing segment of the empty path. *)
Lemma trailing_segment_empty (seg : string) :
  trailing_segment "" seg -> seg = "".
Proof.
  intros [_ [pre [E _]]]. destruct pre as [|c pre].
  - now rewrite append_nil_l in E.
  - rewrite append_cons in E. discriminate.
Qed.

Example trailing_segment_demo :
  List.last (Text.split "/" "arn:aws:ecs:eu-west-1:42:task/runners/0f3a") ""
  = "0f3a".
Proof. reflexivity. Qed.

(** ** The validator *)

Section Validator.

Variable environ : gmap string string.

Lemma validate_request_absent (event : request) :
  event !! "task_type" = None ->
  validate_request environ event
  = Ok (false, "Missing required field: task_type").
Proof.
  intros H. unfold validate_request, required_fields. cbn [List.find].
  rewrite H. rewrite bool_decide_eq_false_2 by (intros [x Hx]; discriminate).
  reflexivity.
Qed.

(** What the validator does once [task_type] is there. *)
Lemma validate_request_present (event : request) (v : pyval) :
  event !! "task_type" = Some v ->
  validate_request environ event
  = match dict_find (TASK_DEFINITIONS environ) v with
    | Raise e => Raise e
    | Ok None =>
        Ok (false,
            "Invalid task_type: " +:+ Text.str v +:+ ". Must be one of: "
            +:+ str_list (List.map fst (TASK_DEFINITIONS environ)))
    | Ok (Some _) =>
        let app_name := get event "app_name" in
        if py_truthy app_name
           && negb (py_in_list app_name (ALLOWED_APPS environ))
        then Ok (false,
                 "App not allowed: " +:+ Text.str app_name
                 +:+ ". Allowed apps: " +:+ str_list (ALLOWED_APPS environ))
        else
          let operation := get event "operation" in
          if py_truthy operation
             && negb (py_in_list operation ALLOWED_OPERATIONS)
          then Ok (false,
                   "Operation not allowed: " +:+ Text.str operation
                   +:+ ". Allowed: " +:+ str_list ALLOWED_OPERATIONS)
          else Ok (true, "")
    end.
Proof.
  intros H. unfold validate_request, required_fields. cbn [List.find].
  rewrite H. rewrite bool_decide_eq_true_2 by eauto. cbv zeta.
  replace (get event "task_type") with v by (unfold get; now rewrite H).
  reflexivity.
Qed.

(** A string is a key of the task-definition table exactly when it is one
    of the three kinds. *)
Lemma assoc_task_definitions (k : string) :
  In k task_kinds <-> is_Some (assoc k (TASK_DEFINITIONS environ)).
Proof.
  unfold task_kinds, TASK_DEFINITIONS. cbn [assoc In]. split.
  - intros [<-|[<-|[<-|[]]]]; cbn; eauto.
  - destruct (String.eqb_spec k "docker_builder"); [now auto |].
    destruct (String.eqb_spec k "terraform_runner"); [now auto |].
    destruct (String.eqb_spec k "app_deployer"); [now auto |].
    intros [x Hx]. discriminate.
Qed.

Lemma dict_find_kind (k : string) :
  In k task_kinds ->
  exists arn, dict_find (TASK_DEFINITIONS environ) (PStr k) = Ok (Some arn).
Proof.
  intros H. apply assoc_task_definitions in H as [arn H].
  exists arn. unfold dict_find. cbn [py_hashable]. now rewrite H.
Qed.

Lemma dict_find_unknown (v : pyval) :
  py_hashable v = true ->
  (forall k, In k task_kinds -> v <> PStr k) ->
  dict_find (TASK_DEFINITIONS environ) v = Ok None.
Proof.
  intros Hh Hk. unfold dict_find. rewrite Hh.
  destruct v as [| | |s| |]; try reflexivity.
  destruct (assoc s (TASK_DEFINITIONS environ)) as [arn|] eqn:E; [|reflexivity].
  exfalso. apply (Hk s); [|reflexivity].
  apply assoc_task_definitions. rewrite E. eauto.
Qed.

End Validator.

Section ValidatorClaims.

Variable environ : gmap string string.

(** The kind check on hashable values.  A request whose [task_type] is
    present with a hashable value (a string, a number, a boolean or null)
    that is none of the three kinds is refused with the "Invalid task_type" reason; the
    message names every valid kind; and the verdict is the same for every
    request carrying that [task_type], whatever its [app_name],
    [operation] or other fields hold. *)
Theorem unknown_kind_rejected (event : request) (v : pyval) :
  event !! "task_type" = Some v ->
  py_hashable v = true ->
  (forall k, In k task_kinds -> v <> PStr k) ->
  let message :=
    "Invalid task_type: " +:+ Text.str v
    +:+ ". Must be one of: ['docker_builder', 'terraform_runner', 'app_deployer']" in
  validate_request environ event = Ok (false, message)
  /\ (forall k, In k task_kinds -> occurs_in (Text.repr_str k) message)
  /\ (forall event' : request,
        event' !! "task_type" = Some v ->
        validate_request environ event' = validate_request environ event).
Proof.
  intros Hv Hh Hk message.
  assert (V : forall e : request, e !! "task_type" = Some v ->
              validate_request environ e = Ok (false, message)).
  { intros e He. rewrite (validate_request_present environ e v He).
    now rewrite (dict_find_unknown environ v Hh Hk). }
  split; [now apply V | split].
  - intros k Hin. unfold occurs_in, message.
    destruct Hin as [<-|[<-|[<-|[]]]].
    + exists ("Invalid task_type: " +:+ Text.str v +:+ ". Must be one of: [").
      exists ", 'terraform_runner', 'app_deployer']".
      now rewrite !append_assoc.
    + exists ("Invalid task_type: " +:+ Text.str v
              +:+ ". Must be one of: ['docker_builder', ").
      exists ", 'app_deployer']".
      now rewrite !append_assoc.
    + exists ("Invalid task_type: " +:+ Text.str v
              +:+ ". Must be one of: ['docker_builder', 'terraform_runner', ").
      exists "]".
      now rewrite !append_assoc.
  - intros e He. rewrite (V e He). symmetry. now apply V.
Qed.

(** C4, as amended.  For a request with a valid [task_type]: an
    [app_name] that is present with a truthy value (a non-empty string,
    say) and is not among the allowed applications is refused with the
    "App not allowed" reason; an [app_name] that is omitted, or present
    with a falsy value (empty string, null), never triggers the check: the
    verdict is then the one of the [operation] check alone. *)
Theorem app_name_check (event : request) (k : string) :
  event !! "task_type" = Some (PStr k) ->
  In k task_kinds ->
  (forall v,
      event !! "app_name" = Some v ->
      py_truthy v = true ->
      py_in_list v (ALLOWED_APPS environ) = false ->
      validate_request environ event
      = Ok (false,
            "App not allowed: " +:+ Text.str v +:+ ". Allowed apps: "
            +:+ str_list (ALLOWED_APPS environ)))
  /\ (event !! "app_name" = None ->
      validate_request environ event = operation_verdict event)
  /\ (forall v,
        event !! "app_name" = Some v ->
        py_truthy v = false ->
        validate_request environ event = operation_verdict event).
Proof.
  intros Hk Hin.
  destruct (dict_find_kind environ k Hin) as [arn Harn].
  rewrite (validate_request_present environ event _ Hk), Harn. cbv zeta.
  unfold operation_verdict, get.
  split; [|split].
  - intros v Hv Ht Hnot. rewrite !Hv. cbn [from_option id].
    now rewrite Ht, Hnot.
  - intros Hv. rewrite !Hv. reflexivity.
  - intros v Hv Hf. rewrite !Hv. cbn [from_option id]. now rewrite Hf.
Qed.

(** C10.  Two requests that agree on [task_type], [app_name] and
    [operation] (each present with the same value, or absent in both) get
    the same outcome from the validator, whatever else they hold. *)
Theorem validate_three_fields (event1 event2 : request) :
  event1 !! "task_type" = event2 !! "task_type" ->
  event1 !! "app_name" = event2 !! "app_name" ->
  event1 !! "operation" = event2 !! "operation" ->
  validate_request environ event1 = validate_request environ event2.
Proof.
  intros Hk Ha Ho.
  unfold validate_request, required_fields, get. cbn [List.find].
  now rewrite Hk, Ha, Ho.
Qed.

End ValidatorClaims.

(** ** The override builder *)

Ltac run_builder :=
  unfold build_container_overrides, get, get_or;
  repeat match goal with
         | H : _ !! _ = _ |- _ => rewrite !H; clear H
         end;
  reflexivity.

(** C5.  For the infrastructure-runner kind the override is one command
    made of one string, [cd <working_dir> && terragrunt <operation>
    --terragrunt-non-interactive], on the container "terraform": with
    [operation] "apply" and [working_dir] "infra/prod" it is the string the
    specification gives, and an omitted [operation] counts as "plan", an
    omitted [working_dir] as ".". *)
Theorem terraform_command (event : request) :
  event !! "task_type" = Some (PStr "terraform_runner") ->
  (event !! "operation" = Some (PStr "apply") ->
   event !! "working_dir" = Some (PStr "infra/prod") ->
   build_container_overrides event
   = [PDict [("name", PStr "terraform");
             ("command",
               PList [PStr "cd infra/prod && terragrunt apply --terragrunt-non-interactive"])]])
  /\ (event !! "operation" = None ->
      event !! "working_dir" = None ->
      build_container_overrides event
      = [PDict [("name", PStr "terraform");
                ("command",
                  PList [PStr "cd . && terragrunt plan --terragrunt-non-interactive"])]])
  /\ build_container_overrides event
     = [PDict [("name", PStr "terraform");
               ("command",
                 PList [PStr ("cd "
                              +:+ Text.str (default (PStr ".") (event !! "working_dir"))
                              +:+ " && terragrunt "
                              +:+ Text.str (default (PStr "plan") (event !! "operation"))
                              +:+ " --terragrunt-non-interactive")])]].
Proof.
  intros Hk. split; [|split].
  - intros Ho Hw. run_builder.
  - intros Ho Hw. run_builder.
  - run_builder.
Qed.

(** C6.  For the image-build kind with [app_name] "foo", [ecr_repository]
    "123.dkr/foo" and neither [git_ref] nor [dockerfile], the command on the
    container "kaniko" has the context reference ending in "#main",
    "--dockerfile" followed by "Dockerfile", and the two destinations
    "123.dkr/foo:main" and "123.dkr/foo:latest"; in general an omitted
    [git_ref] counts as "main" and an omitted [dockerfile] as "Dockerfile". *)
Theorem kaniko_command (event : request) :
  event !! "task_type" = Some (PStr "docker_builder") ->
  (event !! "app_name" = Some (PStr "foo") ->
   event !! "git_ref" = None ->
   event !! "ecr_repository" = Some (PStr "123.dkr/foo") ->
   event !! "dockerfile" = None ->
   build_container_overrides event
   = [PDict [("name", PStr "kaniko");
             ("command",
               PList [PStr "--context";
                      PStr "git://github.com/lightwave-media/foo.git#main";
                      PStr "--dockerfile"; PStr "Dockerfile";
                      PStr "--destination"; PStr "123.dkr/foo:main";
                      PStr "--destination"; PStr "123.dkr/foo:latest";
                      PStr "--cache=true"])]])
  /\ (let app_name := Text.str (default (PStr "") (event !! "app_name")) in
      let git_ref := Text.str (default (PStr "main") (event !! "git_ref")) in
      let ecr_repo := Text.str (default (PStr "") (event !! "ecr_repository")) in
      build_container_overrides event
      = [PDict [("name", PStr "kaniko");
                ("command",
                  PList [PStr "--context";
                         PStr ("git://github.com/lightwave-media/" +:+ app_name
                               +:+ ".git#" +:+ git_ref);
                         PStr "--dockerfile";
                         default (PStr "Dockerfile") (event !! "dockerfile");
                         PStr "--destination";
                         PStr (ecr_repo +:+ ":" +:+ git_ref);
                         PStr "--destination";
                         PStr (ecr_repo +:+ ":latest");
                         PStr "--cache=true"])]]).
Proof.
  intros Hk. split.
  - intros Ha Hg He Hd. run_builder.
  - run_builder.
Qed.

(** C7.  For the combined build-and-deploy kind with the six fields
    supplied, the override targets the container "deployer", has no
    [command] member, and its [environment] is exactly the six entries
    APP_NAME, GIT_REF, ENVIRONMENT, ECR_REPOSITORY, ECS_CLUSTER and
    ECS_SERVICE with the supplied values; an omitted [environment] field
    gives ENVIRONMENT the value "prod". *)
Theorem deployer_environment (event : request) :
  event !! "task_type" = Some (PStr "app_deployer") ->
  (forall a g e r c s : pyval,
      event !! "app_name" = Some a ->
      event !! "git_ref" = Some g ->
      event !! "environment" = Some e ->
      event !! "ecr_repository" = Some r ->
      event !! "ecs_cluster" = Some c ->
      event !! "ecs_service" = Some s ->
      exists override,
        build_container_overrides event = [override]
        /\ override
           = PDict [("name", PStr "deployer");
                    ("environment",
                      PList [env_entry "APP_NAME" a;
                             env_entry "GIT_REF" g;
                             env_entry "ENVIRONMENT" e;
                             env_entry "ECR_REPOSITORY" r;
                             env_entry "ECS_CLUSTER" c;
                             env_entry "ECS_SERVICE" s])]
        /\ member "command" override = None)
  /\ (event !! "environment" = None ->
      exists override entries,
        build_container_overrides event = [override]
        /\ member "name" override = Some (PStr "deployer")
        /\ member "command" override = None
        /\ member "environment" override = Some (PList entries)
        /\ List.nth_error entries 2 = Some (env_entry "ENVIRONMENT" (PStr "prod"))).
Proof.
  intros Hk. split.
  - intros a g e r c s Ha Hg He Hr Hc Hs.
    eexists. split; [run_builder | split; reflexivity].
  - intros He. eexists. eexists.
    split; [run_builder |]. repeat split; reflexivity.
Qed.

(** C8.  The builder is a function of the request alone, with a plain list
    for result: no request makes it fail.  Each of the three kinds yields
    exactly one override, on the container "kaniko", "terraform" and
    "deployer" respectively; any other [task_type], absent or of any value,
    yields the empty list. *)
Theorem builder_total (event : request) :
  (event !! "task_type" = Some (PStr "docker_builder") ->
   exists override, build_container_overrides event = [override]
                    /\ member "name" override = Some (PStr "kaniko"))
  /\ (event !! "task_type" = Some (PStr "terraform_runner") ->
      exists override, build_container_overrides event = [override]
                       /\ member "name" override = Some (PStr "terraform"))
  /\ (event !! "task_type" = Some (PStr "app_deployer") ->
      exists override, build_container_overrides event = [override]
                       /\ member "name" override = Some (PStr "deployer"))
  /\ ((forall k, In k task_kinds -> event !! "task_type" <> Some (PStr k)) ->
      build_container_overrides event = []).
Proof.
  repeat split.
  - intros Hk. eexists. split; [run_builder | reflexivity].
  - intros Hk. eexists. split; [run_builder | reflexivity].
  - intros Hk. eexists. split; [run_builder | reflexivity].
  - intros Hk. unfold build_container_overrides, get.
    destruct (event !! "task_type") as [v|] eqn:E; [|reflexivity].
    cbn [from_option id].
    destruct v as [| | |s| |]; try reflexivity.
    unfold py_eq_str.
    destruct (String.eqb_spec s "docker_builder") as [->|_];
      [exfalso; apply (Hk "docker_builder"); [cbn; auto | reflexivity] |].
    destruct (String.eqb_spec s "terraform_runner") as [->|_];
      [exfalso; apply (Hk "terraform_runner"); [cbn; auto | reflexivity] |].
    destruct (String.eqb_spec s "app_deployer") as [->|_];
      [exfalso; apply (Hk "app_deployer"); [cbn; auto | reflexivity] |].
    reflexivity.
Qed.

(** ** The submitter and the handler *)

Section HandlerClaims.

Variable environ : gmap string string.
Variable backend : Type.
Variable run_task : pyval -> backend -> result run_task_response * backend.

Lemma start_ecs_task_run (event : request) (w : world backend) :
  start_ecs_task environ backend run_task event w
  = match dict_find (TASK_DEFINITIONS environ) (get event "task_type") with
    | Raise e => (Raise e, w)
    | Ok found =>
        let kwargs :=
          run_task_kwargs environ event (opt_str found)
            (build_container_overrides event) in
        match run_task kwargs (ecs w) with
        | (Raise e, b) => (Raise e, called w kwargs b)
        | (Ok answer, b) =>
            match default [] (tasks answer) with
            | [] =>
                (Raise (PyExn "Exception"
                          ("Failed to start ECS task: "
                           +:+ Text.str (PList (default [] (failures answer))))),
                 called w kwargs b)
            | task :: _ =>
                (Ok {| task_arn := default "" (taskArn task);
                       task_id :=
                         if py_truthy (PStr (default "" (taskArn task)))
                         then List.last
                                (Text.split "/" (default "" (taskArn task))) ""
                         else "";
                       cluster_arn := CLUSTER_ARN environ;
                       status := default "PENDING" (lastStatus task) |},
                 called w kwargs b)
            end
        end
    end.
Proof.
  unfold start_ecs_task, bind, lift,
    ecs_client_run_task, called, raise, ret.
  destruct (dict_find (TASK_DEFINITIONS environ) (get event "task_type"))
    as [found|e]; [|reflexivity].
  cbv zeta.
  destruct (run_task _ (ecs w)) as [[answer|e] b]; [|reflexivity].
  destruct (default [] (tasks answer)) as [|task rest]; reflexivity.
Qed.

Lemma handler_run (event : request) (context : pyval) (w : world backend) :
  handler environ backend run_task event context w
  = match validate_request environ event with
    | Raise e =>
        (Ok (response 500 [("success", PBool false);
                           ("error", PStr (exn_str e))]), w)
    | Ok (false, error_message) =>
        (Ok (response 400 [("success", PBool false);
                           ("error", PStr error_message)]), w)
    | Ok (true, _) =>
        match start_ecs_task environ backend run_task event w with
        | (Raise e, w') =>
            (Ok (response 500 [("success", PBool false);
                               ("error", PStr (exn_str e))]), w')
        | (Ok result, w') =>
            (Ok (response 200
                   [("success", PBool true);
                    ("task_arn", PStr (task_arn result));
                    ("task_id", PStr (task_id result));
                    ("cluster_arn", PStr (cluster_arn result));
                    ("status", PStr (status result));
                    ("message",
                      PStr ("ECS task started: " +:+ task_id result))]), w')
        end
    end.
Proof.
  unfold handler, try_except, bind, lift, ret.
  destruct (validate_request environ event) as [[[|] msg]|e]; try reflexivity.
  cbn [negb].
  destruct (start_ecs_task environ backend run_task event w) as [[result|e] w']; reflexivity.
Qed.

(** A request the validator accepts names one of the three kinds. *)
Lemma validate_ok_kind (event : request) (msg : string) :
  validate_request environ event = Ok (true, msg) ->
  exists arn,
    dict_find (TASK_DEFINITIONS environ) (get event "task_type")
    = Ok (Some arn).
Proof.
  intros V. destruct (event !! "task_type") as [v|] eqn:E.
  - rewrite (validate_request_present environ event v E) in V.
    replace (get event "task_type") with v by (unfold get; now rewrite E).
    destruct (dict_find (TASK_DEFINITIONS environ) v) as [[arn|]|e];
      [eauto | discriminate | discriminate].
  - rewrite (validate_request_absent environ event E) in V. discriminate.
Qed.

(** With the text empty the last piece of its split is empty too. *)
Lemma task_id_trailing (arn : string) :
  trailing_segment arn
    (if py_truthy (PStr arn) then List.last (Text.split "/" arn) "" else "").
Proof.
  pose proof (last_split_trailing arn) as H.
  destruct arn as [|c arn]; [exact H | exact H].
Qed.

(** C2.  A request without [task_type] is refused by the validator with
    the "Missing required field" reason; the handler answers 400 with that
    reason and hands the world back as it got it: no call to the backend
    is recorded and the backend's state is untouched. *)
Theorem missing_kind_rejected (event : request) (context : pyval)
        (w : world backend) :
  event !! "task_type" = None ->
  validate_request environ event
  = Ok (false, "Missing required field: task_type")
  /\ handler environ backend run_task event context w
     = (Ok (response 400
              [("success", PBool false);
               ("error", PStr "Missing required field: task_type")]), w)
  /\ calls (snd (handler environ backend run_task event context w)) = calls w.
Proof.
  intros H. pose proof (validate_request_absent environ event H) as V.
  assert (R : handler environ backend run_task event context w
              = (Ok (response 400
                       [("success", PBool false);
                        ("error", PStr "Missing required field: task_type")]),
                 w)).
  { rewrite handler_run, V. reflexivity. }
  split; [exact V | split; [exact R | now rewrite R]].
Qed.

(** C1.  Whatever the event, the handler returns (it never raises) a
    response whose [statusCode] is 400, 500 or 200 and whose body is the
    JSON text of a dict with [success] true exactly for 200.  With 400 or
    500 the dict holds [success] and an [error] string.  With 200 the
    backend was called and answered with at least one task: the dict holds
    [task_arn], the handle of the first task (empty when the backend gave
    none); [task_id], the trailing path segment of that handle;
    [cluster_arn]; [status], the status the backend reported or "PENDING"
    when it reported none; and a message naming the task id. *)
Theorem handler_response (event : request) (context : pyval)
        (w : world backend) :
  exists (code : Z) (body : list (string * pyval)) (w' : world backend),
    handler environ backend run_task event context w = (Ok (response code body), w')
    /\ assoc "success" body = Some (PBool (Z.eqb code 200))
    /\ ((code = 400%Z /\ w' = w
         /\ exists err, body = [("success", PBool false); ("error", PStr err)])
        \/ (code = 500%Z
            /\ exists err,
                body = [("success", PBool false); ("error", PStr err)])
        \/ (code = 200%Z
            /\ exists kwargs answer task rest id,
                run_task kwargs (ecs w) = (Ok answer, ecs w')
                /\ calls w' = (calls w ++ [kwargs])%list
                /\ tasks answer = Some (task :: rest)
                /\ trailing_segment (default "" (taskArn task)) id
                /\ body
                   = [("success", PBool true);
                      ("task_arn", PStr (default "" (taskArn task)));
                      ("task_id", PStr id);
                      ("cluster_arn", PStr (CLUSTER_ARN environ));
                      ("status", PStr (default "PENDING" (lastStatus task)));
                      ("message", PStr ("ECS task started: " +:+ id))])).
Proof.
  rewrite handler_run.
  destruct (validate_request environ event) as [[[|] msg]|e].
  - rewrite start_ecs_task_run.
    destruct (dict_find (TASK_DEFINITIONS environ) (get event "task_type"))
      as [found|e].
    + cbv zeta.
      set (kwargs := run_task_kwargs environ event (opt_str found)
                       (build_container_overrides event)).
      destruct (run_task kwargs (ecs w)) as [[answer|e] b] eqn:R.
      * destruct (default [] (tasks answer)) as [|task rest] eqn:T.
        -- eexists 500%Z, _, _. split; [reflexivity |].
           split; [reflexivity |]. right. left. eauto.
        -- eexists 200%Z, _, _. split; [reflexivity |].
           split; [reflexivity |]. right. right. split; [reflexivity |].
           exists kwargs, answer, task, rest. eexists.
           split; [exact R |]. split; [reflexivity |].
           split; [|split; [apply task_id_trailing | reflexivity]].
           destruct (tasks answer) as [l|]; [|discriminate].
           cbn in T. now rewrite T.
      * eexists 500%Z, _, _. split; [reflexivity |].
        split; [reflexivity |]. right. left. eauto.
    + eexists 500%Z, _, _. split; [reflexivity |].
      split; [reflexivity |]. right. left. eauto.
  - eexists 400%Z, _, _. split; [reflexivity |].
    split; [reflexivity |]. left. eauto.
  - eexists 500%Z, _, _. split; [reflexivity |].
    split; [reflexivity |]. right. left. eauto.
Qed.

(** C9.  For a request the validator accepts, when the backend answers the
    run-task call the handler makes (the one carrying the task definition
    the table holds for the request's kind and the built overrides) with no
    started task, the [tasks] member empty or missing, the handler answers
    500; the body's [error] is "Failed to start ECS task: " followed by the
    text of the backend's [failures] list, so that text occurs in it; the
    body has none of [task_arn], [task_id], [cluster_arn], [status]; and
    that one call is all that was made. *)
Theorem nothing_started (event : request) (context : pyval)
        (w : world backend) (msg k arn : string)
        (answer : run_task_response) (b : backend) :
  validate_request environ event = Ok (true, msg) ->
  event !! "task_type" = Some (PStr k) ->
  assoc k (TASK_DEFINITIONS environ) = Some arn ->
  let kwargs :=
    run_task_kwargs environ event (PStr arn)
      (build_container_overrides event) in
  run_task kwargs (ecs w) = (Ok answer, b) ->
  default [] (tasks answer) = [] ->
  let payload := Text.str (PList (default [] (failures answer))) in
  let body := [("success", PBool false);
               ("error", PStr ("Failed to start ECS task: " +:+ payload))] in
  handler environ backend run_task event context w
  = (Ok (response 500 body), called w kwargs b)
  /\ occurs_in payload ("Failed to start ECS task: " +:+ payload)
  /\ assoc "task_arn" body = None
  /\ assoc "task_id" body = None
  /\ assoc "cluster_arn" body = None
  /\ assoc "status" body = None.
Proof.
  intros V E A kwargs R T payload body.
  assert (F : dict_find (TASK_DEFINITIONS environ) (get event "task_type")
              = Ok (Some arn)).
  { unfold get. rewrite E. cbn [from_option id].
    unfold dict_find. cbn [py_hashable]. now rewrite A. }
  split.
  - rewrite handler_run, V, start_ecs_task_run, F. cbv zeta.
    cbn [opt_str]. fold kwargs. rewrite R, T. reflexivity.
  - split; [|repeat split; reflexivity].
    exists "Failed to start ECS task: ", "". now rewrite append_nil_r.
Qed.

End HandlerClaims.

(** ** The claims at the sample requests *)

Lemma missing_kind_rejected_witness :
  only_app !! "task_type" = None
  /\ handler no_environ nat refusing only_app PNone fresh
     = (Ok (response 400
              [("success", PBool false);
               ("error", PStr "Missing required field: task_type")]), fresh).
Proof.
  assert (H : only_app !! "task_type" = None) by (vm_compute; reflexivity).
  split; [exact H |].
  exact (proj1 (proj2 (missing_kind_rejected no_environ nat refusing
                         only_app PNone fresh H))).
Defined.

Lemma unknown_kind_rejected_witness :
  unknown_kind_bad_app !! "task_type" = Some (PStr "zzz")
  /\ unknown_kind_bad_app !! "app_name" = Some (PStr "evil")
  /\ validate_request no_environ unknown_kind_bad_app
     = Ok (false,
           "Invalid task_type: zzz. Must be one of: ['docker_builder', 'terraform_runner', 'app_deployer']").
Proof.
  assert (H : unknown_kind_bad_app !! "task_type" = Some (PStr "zzz"))
    by (vm_compute; reflexivity).
  split; [exact H | split; [vm_compute; reflexivity |]].
  refine (proj1 (unknown_kind_rejected no_environ unknown_kind_bad_app
                   (PStr "zzz") H eq_refl _)).
  intros k [<-|[<-|[<-|[]]]]; discriminate.
Defined.

(** C3, a defect of the code.  A [task_type] holding a list is present and
    is none of the kinds, yet the validator does not refuse it with a
    reason: the membership test on the task-definition table raises, and
    the handler answers 500 where the claim has a refusal.  The sibling check
    on [app_name], a membership test on a list, does refuse a list value
    with its reason. *)
Lemma list_kind_raises :
  list_kind !! "task_type" = Some (PList [])
  /\ (forall k, In k task_kinds -> PList [] <> PStr k)
  /\ (exists e, validate_request no_environ list_kind = Raise e)
  /\ (forall msg, validate_request no_environ list_kind <> Ok (false, msg))
  /\ (exists err,
        handler no_environ nat refusing list_kind PNone fresh
        = (Ok (response 500 [("success", PBool false); ("error", PStr err)]),
           fresh))
  /\ validate_request no_environ list_app
     = Ok (false,
           "App not allowed: ['x']. Allowed apps: ['cineos', 'photographos', 'createos', 'lightwave-backend']").
Proof.
  split; [vm_compute; reflexivity |].
  split; [intros k _; discriminate |].
  split; [eexists; vm_compute; reflexivity |].
  split; [intros msg; vm_compute; discriminate |].
  split; [|vm_compute; reflexivity].
  exists "unhashable type: 'list'". vm_compute. reflexivity.
Qed.

Lemma app_name_check_witness :
  build_evil !! "app_name" = Some (PStr "evil")
  /\ py_truthy (PStr "evil") = true
  /\ py_in_list (PStr "evil") (ALLOWED_APPS no_environ) = false
  /\ validate_request no_environ build_evil
     = Ok (false,
           "App not allowed: evil. Allowed apps: ['cineos', 'photographos', 'createos', 'lightwave-backend']").
Proof.
  assert (Hk : build_evil !! "task_type" = Some (PStr "docker_builder"))
    by (vm_compute; reflexivity).
  assert (Ha : build_evil !! "app_name" = Some (PStr "evil"))
    by (vm_compute; reflexivity).
  assert (Hin : In "docker_builder" task_kinds) by (cbn; auto).
  split; [exact Ha | split; [reflexivity | split; [vm_compute; reflexivity |]]].
  exact (proj1 (app_name_check no_environ build_evil "docker_builder" Hk Hin)
               (PStr "evil") Ha eq_refl eq_refl).
Defined.

(** An empty [app_name] is present and is not an allowed application, yet
    the request passes validation. *)
Lemma empty_app_name_passes :
  build_empty_app !! "task_type" = Some (PStr "docker_builder")
  /\ In "docker_builder" task_kinds
  /\ build_empty_app !! "app_name" = Some (PStr "")
  /\ py_in_list (PStr "") (ALLOWED_APPS no_environ) = false
  /\ validate_request no_environ build_empty_app = Ok (true, "").
Proof.
  split; [vm_compute; reflexivity |].
  split; [cbn; auto |].
  split; [vm_compute; reflexivity |].
  split; vm_compute; reflexivity.
Qed.

Lemma validate_three_fields_witness :
  validate_request no_environ build_main
  = validate_request no_environ build_release.
Proof.
  apply validate_three_fields; vm_compute; reflexivity.
Defined.

Lemma terraform_command_witness :
  terraform_apply !! "task_type" = Some (PStr "terraform_runner")
  /\ build_container_overrides terraform_apply
     = [PDict [("name", PStr "terraform");
               ("command",
                 PList [PStr "cd infra/prod && terragrunt apply --terragrunt-non-interactive"])]]
  /\ build_container_overrides terraform_bare
     = [PDict [("name", PStr "terraform");
               ("command",
                 PList [PStr "cd . && terragrunt plan --terragrunt-non-interactive"])]].
Proof.
  assert (H : terraform_apply !! "task_type" = Some (PStr "terraform_runner"))
    by (vm_compute; reflexivity).
  assert (H' : terraform_bare !! "task_type" = Some (PStr "terraform_runner"))
    by (vm_compute; reflexivity).
  split; [exact H | split].
  - apply (proj1 (terraform_command terraform_apply H)); vm_compute; reflexivity.
  - apply (proj1 (proj2 (terraform_command terraform_bare H')));
      vm_compute; reflexivity.
Defined.

Lemma kaniko_command_witness :
  build_foo !! "task_type" = Some (PStr "docker_builder")
  /\ build_container_overrides build_foo
     = [PDict [("name", PStr "kaniko");
               ("command",
                 PList [PStr "--context";
                        PStr "git://github.com/lightwave-media/foo.git#main";
                        PStr "--dockerfile"; PStr "Dockerfile";
                        PStr "--destination"; PStr "123.dkr/foo:main";
                        PStr "--destination"; PStr "123.dkr/foo:latest";
                        PStr "--cache=true"])]].
Proof.
  assert (H : build_foo !! "task_type" = Some (PStr "docker_builder"))
    by (vm_compute; reflexivity).
  split; [exact H |].
  apply (proj1 (kaniko_command build_foo H)); vm_compute; reflexivity.
Defined.

Lemma deployer_environment_witness :
  deploy_full !! "task_type" = Some (PStr "app_deployer")
  /\ exists override,
      build_container_overrides deploy_full = [override]
      /\ override
         = PDict [("name", PStr "deployer");
                  ("environment",
                    PList [env_entry "APP_NAME" (PStr "cineos");
                           env_entry "GIT_REF" (PStr "v1.2");
                           env_entry "ENVIRONMENT" (PStr "staging");
                           env_entry "ECR_REPOSITORY" (PStr "123.dkr/cineos");
                           env_entry "ECS_CLUSTER" (PStr "main");
                           env_entry "ECS_SERVICE" (PStr "web")])]
      /\ member "command" override = None.
Proof.
  assert (H : deploy_full !! "task_type" = Some (PStr "app_deployer"))
    by (vm_compute; reflexivity).
  split; [exact H |].
  apply (proj1 (deployer_environment deploy_full H)); vm_compute; reflexivity.
Defined.

Lemma builder_total_witness :
  (exists override,
      build_container_overrides build_foo = [override]
      /\ member "name" override = Some (PStr "kaniko"))
  /\ build_container_overrides unknown_kind_bad_app = []
  /\ build_container_overrides only_app = []
  /\ build_container_overrides list_kind = [].
Proof.
  split; [|split; [|split]].
  - apply (proj1 (builder_total build_foo)). vm_compute; reflexivity.
  - apply (proj2 (proj2 (proj2 (builder_total unknown_kind_bad_app)))).
    intros k [<-|[<-|[<-|[]]]]; vm_compute; discriminate.
  - apply (proj2 (proj2 (proj2 (builder_total only_app)))).
    intros k _. vm_compute; discriminate.
  - apply (proj2 (proj2 (proj2 (builder_total list_kind)))).
    intros k _. vm_compute; discriminate.
Defined.

Lemma nothing_started_witness :
  validate_request no_environ terraform_apply = Ok (true, "")
  /\ terraform_apply !! "task_type" = Some (PStr "terraform_runner")
  /\ assoc "terraform_runner" (TASK_DEFINITIONS no_environ) = Some ""
  /\ default [] (tasks no_capacity) = []
  /\ handler no_environ nat refusing terraform_apply PNone fresh
     = (Ok (response 500
              [("success", PBool false);
               ("error",
                 PStr "Failed to start ECS task: [{'arn': 'x', 'reason': 'RESOURCE:MEMORY'}]")]),
        called fresh
          (run_task_kwargs no_environ terraform_apply (PStr "")
             (build_container_overrides terraform_apply)) 1).
Proof.
  assert (V : validate_request no_environ terraform_apply = Ok (true, ""))
    by (vm_compute; reflexivity).
  assert (E : terraform_apply !! "task_type" = Some (PStr "terraform_runner"))
    by (vm_compute; reflexivity).
  split; [exact V | split; [exact E | split; [reflexivity |]]].
  split; [reflexivity |].
  exact (proj1 (nothing_started no_environ nat refusing terraform_apply PNone
                  fresh "" "terraform_runner" "" no_capacity 1
                  V E eq_refl eq_refl eq_refl)).
Defined.

(** ** The handler at the sample backends *)

Example handler_started_demo :
  fst (handler no_environ nat starting terraform_apply PNone fresh)
  = Ok (response 200
          [("success", PBool true);
           ("task_arn", PStr "arn:aws:ecs:eu-west-1:42:task/runners/0f3a");
           ("task_id", PStr "0f3a");
           ("cluster_arn", PStr "");
           ("status", PStr "PENDING");
           ("message", PStr "ECS task started: 0f3a")])
  /\ length (calls (snd (handler no_environ nat starting terraform_apply
                           PNone fresh))) = 1.
Proof. split; vm_compute; reflexivity. Qed.

Example handler_silent_demo :
  fst (handler no_environ nat silent terraform_apply PNone fresh)
  = Ok (response 500 [("success", PBool false);
                      ("error", PStr "Failed to start ECS task: []")]).
Proof. vm_compute. reflexivity. Qed.

Example handler_failing_demo :
  fst (handler no_environ nat failing terraform_apply PNone fresh)
  = Ok (response 500 [("success", PBool false);
                      ("error", PStr "AccessDeniedException")]).
Proof. vm_compute. reflexivity. Qed.

Example handler_body_demo :
  member "body"
    (response 400 [("success", PBool false); ("error", PStr "no")])
  = Some (PStr ("{" +:+ Text.json_str "success" +:+ ": false, "
                +:+ Text.json_str "error" +:+ ": " +:+ Text.json_str "no"
                +:+ "}")).
Proof. vm_compute. reflexivity. Qed.

(** * Further properties of the invoker *)

Lemma py_in_list_spec (v : pyval) (l : list string) :
  py_in_list v l = true <-> exists s, v = PStr s /\ In s l.
Proof.
  unfold py_in_list. rewrite existsb_exists. split.
  - intros [s [Hin Heq]]. destruct v as [| | |t| |]; try discriminate.
    apply String.eqb_eq in Heq. subst. eauto.
  - intros [s [-> Hin]]. exists s. split; [exact Hin | apply String.eqb_refl].
Qed.

Lemma append_not_empty (c : ascii) (a b : string) : String c a +:+ b <> "".
Proof. rewrite append_cons. discriminate. Qed.

Section ValidatorMore.

Variable environ : gmap string string.

Lemma dict_find_some_inv (v : pyval) (arn : string) :
  dict_find (TASK_DEFINITIONS environ) v = Ok (Some arn) ->
  exists k, v = PStr k /\ In k task_kinds.
Proof.
  unfold dict_find. destruct (py_hashable v); [|discriminate].
  destruct v as [| | |k| |]; try discriminate.
  intros H. exists k. split; [reflexivity |].
  apply (assoc_task_definitions environ). exists arn. congruence.
Qed.

(** The validator on a request whose [task_type] is one of the kinds. *)
Lemma validate_request_kind (event : request) (k : string) :
  event !! "task_type" = Some (PStr k) ->
  In k task_kinds ->
  validate_request environ event
  = if py_truthy (get event "app_name")
       && negb (py_in_list (get event "app_name") (ALLOWED_APPS environ))
    then Ok (false,
             "App not allowed: " +:+ Text.str (get event "app_name")
             +:+ ". Allowed apps: " +:+ str_list (ALLOWED_APPS environ))
    else operation_verdict event.
Proof.
  intros Hk Hin. destruct (dict_find_kind environ k Hin) as [arn Harn].
  now rewrite (validate_request_present environ event _ Hk), Harn.
Qed.

(** The operation check.  For a request with a valid [task_type] whose
    [app_name] passes (absent, falsy or allowed), an [operation] that is
    present with a truthy value outside build, deploy, plan, apply is
    refused with the "Operation not allowed" reason, naming the four. *)
Theorem operation_check (event : request) (k : string) (v : pyval) :
  event !! "task_type" = Some (PStr k) ->
  In k task_kinds ->
  py_truthy (get event "app_name")
  && negb (py_in_list (get event "app_name") (ALLOWED_APPS environ)) = false ->
  event !! "operation" = Some v ->
  py_truthy v = true ->
  py_in_list v ALLOWED_OPERATIONS = false ->
  validate_request environ event
  = Ok (false,
        "Operation not allowed: " +:+ Text.str v
        +:+ ". Allowed: ['build', 'deploy', 'plan', 'apply']").
Proof.
  intros Hk Hin Happ Ho Ht Hn.
  rewrite (validate_request_kind event k Hk Hin), Happ.
  unfold operation_verdict, get. rewrite !Ho. cbn [from_option id].
  now rewrite Ht, Hn.
Qed.

(** The validator accepts a request, with an empty reason, exactly when
    its [task_type] is a string naming one of the three kinds and each of
    [app_name] and [operation] is absent, falsy, or a string on its
    allow-list. *)
Theorem validate_accepts (event : request) :
  validate_request environ event = Ok (true, "")
  <-> acceptable environ event.
Proof.
  unfold acceptable. split.
  - intros V.
    destruct (event !! "task_type") as [v|] eqn:E;
      [|rewrite (validate_request_absent environ event E) in V; discriminate].
    assert (K : exists k, v = PStr k /\ In k task_kinds).
    { rewrite (validate_request_present environ event v E) in V.
      destruct (dict_find (TASK_DEFINITIONS environ) v) as [[arn|]|e] eqn:F;
        [eapply dict_find_some_inv; eauto | discriminate | discriminate]. }
    destruct K as [k [-> Hin]].
    rewrite (validate_request_kind event k E Hin) in V.
    split; [eauto |].
    destruct (py_truthy (get event "app_name")) eqn:Ta;
      destruct (py_in_list (get event "app_name") (ALLOWED_APPS environ)) eqn:Ia;
      cbn in V; try discriminate;
      unfold operation_verdict in V; cbv zeta in V;
      destruct (py_truthy (get event "operation")) eqn:To;
      destruct (py_in_list (get event "operation") ALLOWED_OPERATIONS) eqn:Io;
      cbn in V; try discriminate;
      (split; [intros; try discriminate; now apply py_in_list_spec
              | intros; try discriminate; now apply py_in_list_spec]).
  - intros [[k [E Hin]] [Ha Ho]].
    rewrite (validate_request_kind event k E Hin).
    destruct (py_truthy (get event "app_name")) eqn:Ta.
    + apply py_in_list_spec in Ha; [|reflexivity]. rewrite Ha. cbn.
      unfold operation_verdict. cbv zeta.
      destruct (py_truthy (get event "operation")) eqn:To; [|reflexivity].
      apply py_in_list_spec in Ho; [|reflexivity]. now rewrite Ho.
    + cbn. unfold operation_verdict. cbv zeta.
      destruct (py_truthy (get event "operation")) eqn:To; [|reflexivity].
      apply py_in_list_spec in Ho; [|reflexivity]. now rewrite Ho.
Qed.

(** Whenever the validator returns, its flag is true exactly when its
    reason is empty: a refusal always carries a non-empty reason and an
    acceptance never carries one. *)
Theorem validate_reason (event : request) (ok : bool) (reason : string) :
  validate_request environ event = Ok (ok, reason) ->
  (ok = true <-> reason = "").
Proof.
  intros V.
  destruct (event !! "task_type") as [v|] eqn:E.
  - rewrite (validate_request_present environ event v E) in V.
    destruct (dict_find (TASK_DEFINITIONS environ) v) as [[arn|]|e];
      [|injection V as <- <-; split;
          [discriminate | intros H; now apply append_not_empty in H]
       |discriminate].
    cbv zeta in V.
    destruct (py_truthy (get event "app_name")
              && negb (py_in_list (get event "app_name") (ALLOWED_APPS environ))).
    + injection V as <- <-. split;
        [discriminate | intros H; now apply append_not_empty in H].
    + destruct (py_truthy (get event "operation")
                && negb (py_in_list (get event "operation") ALLOWED_OPERATIONS)).
      * injection V as <- <-. split;
          [discriminate | intros H; now apply append_not_empty in H].
      * injection V as <- <-. split; reflexivity.
  - rewrite (validate_request_absent environ event E) in V.
    injection V as <- <-. split; discriminate.
Qed.

(** The validator raises exactly when [task_type] is present and holds a
    list or a dict; every other request gets a verdict. *)
Theorem validate_raises (event : request) :
  (exists e, validate_request environ event = Raise e)
  <-> exists v, event !! "task_type" = Some v /\ py_hashable v = false.
Proof.
  split.
  - intros [e V].
    destruct (event !! "task_type") as [v|] eqn:E;
      [|rewrite (validate_request_absent environ event E) in V; discriminate].
    exists v. split; [reflexivity |].
    rewrite (validate_request_present environ event v E) in V.
    unfold dict_find in V. destruct (py_hashable v); [|reflexivity].
    exfalso. destruct v; cbv zeta in V;
      repeat match type of V with
             | context [match ?x with _ => _ end] => destruct x
             end; discriminate.
  - intros [v [E H]].
    rewrite (validate_request_present environ event v E).
    unfold dict_find. rewrite H. eauto.
Qed.

End ValidatorMore.

Section HandlerMore.

Variable environ : gmap string string.
Variable backend : Type.
Variable run_task : pyval -> backend -> result run_task_response * backend.

Lemma validate_ok_entry (event : request) (msg : string) :
  validate_request environ event = Ok (true, msg) ->
  exists k arn,
    event !! "task_type" = Some (PStr k)
    /\ assoc k (TASK_DEFINITIONS environ) = Some arn
    /\ dict_find (TASK_DEFINITIONS environ) (get event "task_type")
       = Ok (Some arn).
Proof.
  intros V. destruct (validate_ok_kind environ event msg V) as [arn F].
  destruct (dict_find_some_inv environ _ _ F) as [k [G Hin]].
  exists k, arn. unfold get in G.
  destruct (event !! "task_type") as [v|] eqn:E.
  - cbn [from_option id] in G. subst v. split; [reflexivity |].
    split; [|exact F].
    unfold get in F. rewrite E in F. cbn [from_option id] in F.
    unfold dict_find in F. cbn [py_hashable] in F. congruence.
  - rewrite (validate_request_absent environ event E) in V. discriminate.
Qed.

(** Every refusal of the validator, whatever its reason, is answered 400
    with that reason and without touching the backend; and the handler
    answers 400 in no other case. *)
Theorem refusal_is_400 (event : request) (context : pyval)
        (w : world backend) :
  (forall msg,
      validate_request environ event = Ok (false, msg) ->
      handler environ backend run_task event context w
      = (Ok (response 400 [("success", PBool false); ("error", PStr msg)]), w))
  /\ (forall body w',
         handler environ backend run_task event context w
         = (Ok (response 400 body), w') ->
         exists msg, validate_request environ event = Ok (false, msg)).
Proof.
  split.
  - intros msg V. rewrite handler_run, V. reflexivity.
  - intros body w' H. rewrite handler_run in H.
    destruct (validate_request environ event) as [[[|] msg]|e];
      [|eauto|discriminate].
    destruct (start_ecs_task environ backend run_task event w) as [[r|e] w1];
      discriminate.
Qed.

(** A request the validator accepts makes the handler call the backend
    exactly once, whatever the backend answers: the call carries the task
    definition the table holds for the kind and the overrides the builder
    gives, and the world afterwards is the one that call left. *)
Theorem accepted_calls_once (event : request) (context : pyval)
        (w : world backend) (msg : string) :
  validate_request environ event = Ok (true, msg) ->
  exists k arn,
    event !! "task_type" = Some (PStr k)
    /\ assoc k (TASK_DEFINITIONS environ) = Some arn
    /\ let kwargs :=
         run_task_kwargs environ event (PStr arn)
           (build_container_overrides event) in
       snd (handler environ backend run_task event context w)
       = called w kwargs (snd (run_task kwargs (ecs w))).
Proof.
  intros V. destruct (validate_ok_entry event msg V) as [k [arn [E [A F]]]].
  exists k, arn. split; [exact E | split; [exact A |]]. cbv zeta.
  rewrite handler_run, V, start_ecs_task_run, F. cbv zeta. cbn [opt_str].
  destruct (run_task _ (ecs w)) as [[answer|e] b]; [|reflexivity].
  destruct (default [] (tasks answer)); reflexivity.
Qed.

(** Unless the validator accepts the request, the handler leaves the world
    as it found it: no call to the backend is made. *)
Theorem unaccepted_never_calls (event : request) (context : pyval)
        (w : world backend) :
  (forall msg, validate_request environ event <> Ok (true, msg)) ->
  snd (handler environ backend run_task event context w) = w.
Proof.
  intros V. rewrite handler_run.
  destruct (validate_request environ event) as [[[|] msg]|e];
    [exfalso; now apply (V msg) | reflexivity | reflexivity].
Qed.

(** When the client raises on the run-task call the handler makes for an
    accepted request, the handler answers 500 with the text of that
    exception as [error]; the call is on record and no second one is
    attempted. *)
Theorem transport_failure (event : request) (context : pyval)
        (w : world backend) (msg k arn : string) (e : exn) (b : backend) :
  validate_request environ event = Ok (true, msg) ->
  event !! "task_type" = Some (PStr k) ->
  assoc k (TASK_DEFINITIONS environ) = Some arn ->
  let kwargs :=
    run_task_kwargs environ event (PStr arn)
      (build_container_overrides event) in
  run_task kwargs (ecs w) = (Raise e, b) ->
  handler environ backend run_task event context w
  = (Ok (response 500 [("success", PBool false);
                       ("error", PStr (exn_str e))]),
     called w kwargs b).
Proof.
  intros V E A kwargs R.
  assert (F : dict_find (TASK_DEFINITIONS environ) (get event "task_type")
              = Ok (Some arn)).
  { unfold get. rewrite E. cbn [from_option id].
    unfold dict_find. cbn [py_hashable]. now rewrite A. }
  rewrite handler_run, V, start_ecs_task_run, F. cbv zeta. cbn [opt_str].
  fold kwargs. rewrite R. reflexivity.
Qed.

(** When the backend answers the run-task call the handler makes for an
    accepted request with one task or more, the handler answers 200 and
    reports the first task only: the other tasks and the [failures] member
    do not show in the response. *)
Theorem first_task_reported (event : request) (context : pyval)
        (w : world backend) (msg k arn : string) (answer : run_task_response)
        (task : task_descr) (rest : list task_descr) (b : backend) :
  validate_request environ event = Ok (true, msg) ->
  event !! "task_type" = Some (PStr k) ->
  assoc k (TASK_DEFINITIONS environ) = Some arn ->
  let kwargs :=
    run_task_kwargs environ event (PStr arn)
      (build_container_overrides event) in
  run_task kwargs (ecs w) = (Ok answer, b) ->
  tasks answer = Some (task :: rest) ->
  exists id,
    trailing_segment (default "" (taskArn task)) id
    /\ handler environ backend run_task event context w
       = (Ok (response 200
                [("success", PBool true);
                 ("task_arn", PStr (default "" (taskArn task)));
                 ("task_id", PStr id);
                 ("cluster_arn", PStr (CLUSTER_ARN environ));
                 ("status", PStr (default "PENDING" (lastStatus task)));
                 ("message", PStr ("ECS task started: " +:+ id))]),
          called w kwargs b).
Proof.
  intros V E A kwargs R T.
  assert (F : dict_find (TASK_DEFINITIONS environ) (get event "task_type")
              = Ok (Some arn)).
  { unfold get. rewrite E. cbn [from_option id].
    unfold dict_find. cbn [py_hashable]. now rewrite A. }
  eexists. split; [apply task_id_trailing |].
  rewrite handler_run, V, start_ecs_task_run, F. cbv zeta. cbn [opt_str].
  fold kwargs. rewrite R, T. reflexivity.
Qed.

(** A request the validator accepts always gets exactly one override from
    the builder, on one of the containers kaniko, terraform, deployer: an
    accepted request never submits an empty override list. *)
Theorem accepted_has_override (event : request) (msg : string) :
  validate_request environ event = Ok (true, msg) ->
  exists override name,
    build_container_overrides event = [override]
    /\ member "name" override = Some (PStr name)
    /\ In name ["kaniko"; "terraform"; "deployer"].
Proof.
  intros V. destruct (validate_ok_entry event msg V) as [k [arn [E [A F]]]].
  assert (Hin : In k task_kinds)
    by (apply (assoc_task_definitions environ); eauto).
  destruct Hin as [<-|[<-|[<-|[]]]].
  - eexists. exists "kaniko". split; [run_builder |].
    split; [reflexivity | cbn; auto].
  - eexists. exists "terraform". split; [run_builder |].
    split; [reflexivity | cbn; auto].
  - eexists. exists "deployer". split; [run_builder |].
    split; [reflexivity | cbn; auto].
Qed.

End HandlerMore.

Lemma build_other_kind (event : request) :
  (forall k, In k task_kinds -> event !! "task_type" <> Some (PStr k)) ->
  build_container_overrides event = [].
Proof.
  intros Hk. unfold build_container_overrides, get.
  destruct (event !! "task_type") as [v|] eqn:E; [|reflexivity].
  cbn [from_option id]. destruct v as [| | |s| |]; try reflexivity.
  unfold py_eq_str.
  repeat match goal with
         | |- context [String.eqb s ?lit] =>
             destruct (String.eqb_spec s lit) as [->|_];
             [exfalso; apply (Hk lit); [cbn; auto | reflexivity] |]
         end.
  reflexivity.
Qed.

(** The override of a kind depends on the fields of that kind alone: two
    requests of the same kind that agree on them get the same overrides,
    whatever their other fields hold. *)
Theorem builder_reads_kind_fields (event1 event2 : request) :
  event1 !! "task_type" = event2 !! "task_type" ->
  (event1 !! "task_type" = Some (PStr "terraform_runner") ->
   event1 !! "operation" = event2 !! "operation" ->
   event1 !! "working_dir" = event2 !! "working_dir" ->
   build_container_overrides event1 = build_container_overrides event2)
  /\ (event1 !! "task_type" = Some (PStr "docker_builder") ->
      event1 !! "app_name" = event2 !! "app_name" ->
      event1 !! "git_ref" = event2 !! "git_ref" ->
      event1 !! "ecr_repository" = event2 !! "ecr_repository" ->
      event1 !! "dockerfile" = event2 !! "dockerfile" ->
      build_container_overrides event1 = build_container_overrides event2)
  /\ (event1 !! "task_type" = Some (PStr "app_deployer") ->
      event1 !! "app_name" = event2 !! "app_name" ->
      event1 !! "git_ref" = event2 !! "git_ref" ->
      event1 !! "environment" = event2 !! "environment" ->
      event1 !! "ecr_repository" = event2 !! "ecr_repository" ->
      event1 !! "ecs_cluster" = event2 !! "ecs_cluster" ->
      event1 !! "ecs_service" = event2 !! "ecs_service" ->
      build_container_overrides event1 = build_container_overrides event2)
  /\ ((forall k, In k task_kinds -> event1 !! "task_type" <> Some (PStr k)) ->
      build_container_overrides event1 = build_container_overrides event2).
Proof.
  intros Hk. repeat split.
  - intros K Ho Hw. unfold build_container_overrides, get, get_or.
    rewrite <- Hk, <- Ho, <- Hw, K. reflexivity.
  - intros K Ha Hg He Hd. unfold build_container_overrides, get, get_or.
    rewrite <- Hk, <- Ha, <- Hg, <- He, <- Hd, K. reflexivity.
  - intros K Ha Hg Hv He Hc Hs. unfold build_container_overrides, get, get_or.
    rewrite <- Hk, <- Ha, <- Hg, <- Hv, <- He, <- Hc, <- Hs, K. reflexivity.
  - intros K. rewrite (build_other_kind event1 K).
    symmetry. apply build_other_kind. intros k Hin. rewrite <- Hk. now apply K.
Qed.

(** ** The configuration lists *)

Section Configuration.

Variable environ : gmap string string.

Lemma split_round_trip (text : string) :
  Text.split "," text <> []
  /\ Text.join "," (Text.split "," text) = text
  /\ Forall (fun piece => Text.contains_char "," piece = false)
            (Text.split "," text).
Proof.
  split; [|split].
  - destruct (split_cons "," text) as [h [t E]]. rewrite E. discriminate.
  - apply (join_split ","%char).
  - apply split_no_sep.
Qed.

(** The three lists read from the environment are never empty (an unset
    or empty variable gives the single entry ""), none of their entries
    holds a comma, and joined with commas they give back the text they
    were read from. *)
Theorem configuration_lists :
  let parsed (l : list string) (text : string) :=
    l <> [] /\ Text.join "," l = text
    /\ Forall (fun piece => Text.contains_char "," piece = false) l in
  parsed (ALLOWED_APPS environ)
    (default "cineos,photographos,createos,lightwave-backend"
       (environ !! "ALLOWED_APPS"))
  /\ parsed (SUBNET_IDS environ) (default "" (environ !! "SUBNET_IDS"))
  /\ parsed (SECURITY_GROUP_IDS environ)
            (default "" (environ !! "SECURITY_GROUP_IDS"))
  /\ (default "" (environ !! "SUBNET_IDS") = "" -> SUBNET_IDS environ = [""]).
Proof.
  cbv zeta. unfold ALLOWED_APPS, SUBNET_IDS, SECURITY_GROUP_IDS, environ_get.
  split; [apply split_round_trip |].
  split; [apply split_round_trip |].
  split; [apply split_round_trip |].
  intros ->. reflexivity.
Qed.

(** Setting ALLOWED_APPS to the empty text does not switch the check off:
    the allow-list is then the single entry "", and every request of a
    valid kind that names an application (a truthy [app_name]) is
    refused. *)
Theorem empty_allow_list_refuses (event : request) (k : string) (v : pyval) :
  environ !! "ALLOWED_APPS" = Some "" ->
  event !! "task_type" = Some (PStr k) ->
  In k task_kinds ->
  event !! "app_name" = Some v ->
  py_truthy v = true ->
  validate_request environ event
  = Ok (false, "App not allowed: " +:+ Text.str v +:+ ". Allowed apps: ['']").
Proof.
  intros Henv Hk Hin Ha Ht.
  rewrite (validate_request_kind environ event k Hk Hin).
  unfold get. rewrite !Ha. cbn [from_option id].
  unfold ALLOWED_APPS, environ_get. rewrite Henv. cbn [from_option id].
  assert (N : py_in_list v (Text.split "," "") = false).
  { destruct v as [| | |s| |]; try reflexivity.
    destruct s; [discriminate | reflexivity]. }
  rewrite Ht, N. reflexivity.
Qed.

End Configuration.

(** * The bucket clean-up script *)

Section CleanupProperties.

Import Cleanup.

Variable store : Type.
Variable connect : string -> result unit.
Variable listing : string -> list (result page).
Variable delete_object :
  string -> string -> string -> store -> result unit * store.

(** What one run of a loop adds: the requests [done] and the lines
    [lines], every line reporting a deletion. *)
Lemma delete_entries_run (bucket : string) (report : string -> string -> line)
      (entries : list object_version) :
  (forall key version, is_deletion (report key version) = true) ->
  forall count st r st',
    delete_entries store delete_object bucket report entries count st = (r, st') ->
    exists done lines,
      requests st' = (requests st ++ List.map (pair bucket) done)%list
      /\ stdout st' = (stdout st ++ lines)%list
      /\ forallb is_deletion lines = true
      /\ done `prefix_of` entries
      /\ match r with
         | Ok n => done = entries /\ n = count + length done
                   /\ length lines = length done
         | Raise _ => length done = S (length lines)
         end.
Proof.
  intros Hrep. induction entries as [|v rest IH]; intros count st r st' H.
  - cbn in H. injection H as <- <-. exists [], [].
    rewrite !app_nil_r. cbn. repeat split; auto.
  - cbn [delete_entries] in H.
    destruct (delete_object bucket (Key v) (VersionId v) (s3 st))
      as [[u|e] s'] eqn:D.
    + apply IH in H. destruct H as [done [lines [Hr [Ho [Hl [Hp Hres]]]]]].
      exists (v :: done), (report (Key v) (VersionId v) :: lines).
      cbn [print requests stdout] in Hr, Ho.
      split; [rewrite Hr, <- List.app_assoc; reflexivity |].
      split; [rewrite Ho, <- List.app_assoc; reflexivity |].
      split; [cbn; now rewrite Hrep, Hl |].
      split; [now apply prefix_cons |].
      destruct r as [n|e].
      * destruct Hres as [-> [-> Hlen]]. cbn. repeat split; lia.
      * cbn. lia.
    + injection H as <- <-. exists [v], [].
      cbn. rewrite app_nil_r. repeat split; auto.
      apply prefix_cons, prefix_nil.
Qed.

Lemma delete_member_run (bucket : string) (report : string -> string -> line)
      (member : option (list object_version)) :
  (forall key version, is_deletion (report key version) = true) ->
  forall count st r st',
    delete_member store delete_object bucket report member count st = (r, st') ->
    exists done lines,
      requests st' = (requests st ++ List.map (pair bucket) done)%list
      /\ stdout st' = (stdout st ++ lines)%list
      /\ forallb is_deletion lines = true
      /\ done `prefix_of` default [] member
      /\ match r with
         | Ok n => done = default [] member /\ n = count + length done
                   /\ length lines = length done
         | Raise _ => length done = S (length lines)
         end.
Proof.
  intros Hrep count st r st' H. destruct member as [entries|].
  - now apply (delete_entries_run bucket report entries Hrep).
  - cbn in H. injection H as <- <-. exists [], [].
    rewrite !app_nil_r. cbn. repeat split; auto.
Qed.

Lemma delete_pages_run (bucket : string) (pages : list (result page)) :
  forall count st r st',
    delete_pages store delete_object bucket pages count st = (r, st') ->
    exists done lines,
      requests st' = (requests st ++ List.map (pair bucket) done)%list
      /\ stdout st' = (stdout st ++ lines)%list
      /\ forallb is_deletion lines = true
      /\ done `prefix_of` List.concat (List.map page_entries (fetched pages))
      /\ match r with
         | Ok n => pages = List.map Ok (fetched pages)
                   /\ done = List.concat (List.map page_entries (fetched pages))
                   /\ n = count + length done
                   /\ length lines = length done
         | Raise _ => length lines <= length done <= S (length lines)
         end.
Proof.
  induction pages as [|[p|e] rest IH]; intros count st r st' H.
  - cbn in H. injection H as <- <-. exists [], [].
    rewrite !app_nil_r. cbn. repeat split; auto.
  - cbn [delete_pages] in H.
    destruct (delete_member store delete_object bucket DeletedVersion
                (Versions p) count st) as [r1 st1] eqn:H1.
    apply delete_member_run in H1; [|reflexivity].
    destruct H1 as [d1 [l1 [Hr1 [Ho1 [Hl1 [Hp1 Hres1]]]]]].
    destruct r1 as [c1|e1].
    + destruct Hres1 as [-> [-> Hlen1]].
      destruct (delete_member store delete_object bucket DeletedMarker
                  (DeleteMarkers p) (count + length (default [] (Versions p)))
                  st1) as [r2 st2] eqn:H2.
      apply delete_member_run in H2; [|reflexivity].
      destruct H2 as [d2 [l2 [Hr2 [Ho2 [Hl2 [Hp2 Hres2]]]]]].
      destruct r2 as [c2|e2].
      * destruct Hres2 as [-> [-> Hlen2]].
        apply IH in H. destruct H as [d3 [l3 [Hr3 [Ho3 [Hl3 [Hp3 Hres3]]]]]].
        exists (page_entries p ++ d3)%list, (l1 ++ l2 ++ l3)%list.
        split.
        { rewrite Hr3, Hr2, Hr1. unfold page_entries.
          rewrite !List.map_app, <- !List.app_assoc. reflexivity. }
        split; [rewrite Ho3, Ho2, Ho1, <- !List.app_assoc; reflexivity |].
        split; [rewrite !forallb_app, Hl1, Hl2, Hl3; reflexivity |].
        split; [cbn; now apply prefix_app |].
        destruct r as [n|e].
        -- destruct Hres3 as [Hpages [-> [-> Hlen3]]].
           cbn [fetched List.map List.concat].
           split; [now rewrite <- Hpages |].
           split; [reflexivity |].
           unfold page_entries in *. rewrite ?length_app in *. lia.
        -- unfold page_entries in *. rewrite ?length_app in *. lia.
      * injection H as <- <-.
        exists (default [] (Versions p) ++ d2)%list, (l1 ++ l2)%list.
        split; [rewrite Hr2, Hr1, List.map_app, <- List.app_assoc; reflexivity |].
        split; [rewrite Ho2, Ho1, <- List.app_assoc; reflexivity |].
        split; [rewrite forallb_app, Hl1, Hl2; reflexivity |].
        split.
        { cbn. unfold page_entries. rewrite <- List.app_assoc.
          apply prefix_app. now apply prefix_app_r. }
        rewrite !length_app. lia.
    + injection H as <- <-. exists d1, l1.
      split; [exact Hr1 |]. split; [exact Ho1 |]. split; [exact Hl1 |].
      split; [|lia].
      cbn. unfold page_entries. rewrite <- List.app_assoc.
      now apply prefix_app_r.
  - cbn in H. injection H as <- <-. exists [], [].
    rewrite !app_nil_r. cbn. repeat split; auto.
Qed.

Lemma prefix_map_pair (bucket : string) (done entries : list object_version) :
  done `prefix_of` entries ->
  List.map (pair bucket) done `prefix_of` List.map (pair bucket) entries.
Proof. intros [k ->]. exists (List.map (pair bucket) k). apply List.map_app. Qed.


(** When the clean-up returns a count, every fetch of the listing had
    succeeded, one [delete_object] request was sent for every version and
    every delete marker listed, in listing order (versions before markers
    within a page), and the count returned and printed equals both the
    number of those requests and the number of deletion lines printed. *)
Theorem cleanup_count (bucket profile : string) (st st' : state store)
        (n : nat) :
  delete_all_versions store connect listing delete_object bucket profile st
  = (Ok n, st') ->
  exists lines,
    listing bucket = List.map Ok (fetched (listing bucket))
    /\ requests st'
       = (requests st ++ plan bucket (fetched (listing bucket)))%list
    /\ n = length (plan bucket (fetched (listing bucket)))
    /\ stdout st'
       = (stdout st ++ Deleting bucket :: lines ++ [Summary n])%list
    /\ forallb is_deletion lines = true
    /\ length lines = n.
Proof.
  unfold delete_all_versions. intros H.
  destruct (connect profile) as [u|e]; [|discriminate].
  destruct (delete_pages store delete_object bucket (listing bucket) 0
              (print store (Deleting bucket) st)) as [[m|e] st1] eqn:P;
    [|discriminate].
  injection H as <- <-.
  apply delete_pages_run in P.
  destruct P as [done [lines [Hr [Ho [Hl [Hp [Hpages [-> [-> Hlen]]]]]]]]].
  exists lines. cbn [print requests stdout] in *.
  split; [exact Hpages |]. split; [exact Hr |].
  split; [unfold plan; now rewrite length_map |].
  split; [rewrite Ho, <- !List.app_assoc; reflexivity |].
  split; [exact Hl | lia].
Qed.

(** Whatever the outcome, the requests the clean-up sends are a prefix of
    the listing in listing order, all for the bucket it was given: nothing
    unlisted and nothing of another bucket is ever deleted.  When it
    raises, no summary is printed and every request but at most the last
    was reported as deleted: it stops at the first request that fails. *)
Theorem cleanup_requests (bucket profile : string) (st st' : state store)
        (r : result nat) :
  delete_all_versions store connect listing delete_object bucket profile st
  = (r, st') ->
  exists done lines,
    requests st' = (requests st ++ done)%list
    /\ done `prefix_of` plan bucket (fetched (listing bucket))
    /\ forallb is_deletion lines = true
    /\ match r with
       | Ok n =>
           stdout st'
           = (stdout st ++ Deleting bucket :: lines ++ [Summary n])%list
       | Raise _ =>
           (st' = st /\ done = [] /\ lines = [])
           \/ (stdout st' = (stdout st ++ Deleting bucket :: lines)%list
               /\ length lines <= length done <= S (length lines))
       end.
Proof.
  unfold delete_all_versions. intros H.
  destruct (connect profile) as [u|e].
  - destruct (delete_pages store delete_object bucket (listing bucket) 0
                (print store (Deleting bucket) st)) as [r1 st1] eqn:P.
    apply delete_pages_run in P.
    destruct P as [done [lines [Hr [Ho [Hl [Hp Hres]]]]]].
    exists (List.map (pair bucket) done), lines.
    cbn [print requests stdout] in *.
    destruct r1 as [m|e]; injection H as <- <-.
    + split; [exact Hr |]. split; [now apply prefix_map_pair |].
      split; [exact Hl |]. cbn [print stdout].
      rewrite Ho, <- !List.app_assoc. reflexivity.
    + split; [exact Hr |]. split; [now apply prefix_map_pair |].
      split; [exact Hl |]. right.
      split; [rewrite Ho, <- List.app_assoc; reflexivity |].
      rewrite length_map. exact Hres.
  - injection H as <- <-. exists [], [].
    rewrite app_nil_r. split; [reflexivity |].
    split; [apply prefix_nil |]. split; [reflexivity |]. now left.
Qed.


End CleanupProperties.

(** * The health probes *)

Lemma py_eq_str_false (v : pyval) (s : string) :
  py_eq_str v s = false <-> v <> PStr s.
Proof.
  destruct v as [| | |t| |]; cbn; try (split; [discriminate | reflexivity]).
  destruct (String.eqb_spec t s) as [->|N]; split; try congruence.
Qed.

Section HealthProperties.

Import Health.

Variable database : Type.
Variable cache_store : Type.
Variable select_1 : database -> result unit * database.
Variable cache_set :
  string -> pyval -> Z -> cache_store -> result unit * cache_store.
Variable cache_get : string -> cache_store -> result pyval * cache_store.

(** The readiness probe answers a GET with 200 and "healthy" when SELECT 1
    runs, with 503 and "unhealthy" when it raises; the [database] flag
    says which.  The cache has no part in the status, whatever it does. *)
Theorem readiness_follows_database (request : http_request)
        (sv : services database cache_store) :
  method request = "GET" ->
  let database_ok :=
    match fst (select_1 (connection sv)) with
    | Ok _ => true
    | Raise _ => false
    end in
  exists cache_ok,
    fst (readiness database cache_store select_1 cache_set cache_get
           request sv)
    = JsonResponse
        (PDict [("status",
                  PStr (if database_ok then "healthy" else "unhealthy"));
                ("checks", PDict [("database", PBool database_ok);
                                  ("cache", PBool cache_ok)])])
        (if database_ok then 200%Z else 503%Z).
Proof.
  intros G. unfold readiness, require_GET. rewrite G.
  rewrite String.eqb_refl. cbn [negb].
  destruct (select_1 (connection sv)) as [[u|e] d'];
    destruct (cache_set "health_check" (PStr "ok") 10%Z (cache sv))
      as [[u'|e'] c1];
    try destruct (cache_get "health_check" c1) as [[v|e''] c2];
    cbn; eauto.
Qed.

(** The readiness probe reports the cache as failed in one case only:
    [cache.set] and [cache.get] both return and the value read back is not
    "ok".  A cache that raises on either call is reported as fine. *)
Theorem readiness_cache_flag (request : http_request)
        (sv : services database cache_store) :
  method request = "GET" ->
  exists status database_ok cache_ok,
    data (fst (readiness database cache_store select_1 cache_set cache_get
                 request sv))
    = Some (PDict [("status", status);
                   ("checks", PDict [("database", PBool database_ok);
                                     ("cache", PBool cache_ok)])])
    /\ (cache_ok = false
        <-> exists u c1 v c2,
            cache_set "health_check" (PStr "ok") 10%Z (cache sv) = (Ok u, c1)
            /\ cache_get "health_check" c1 = (Ok v, c2)
            /\ v <> PStr "ok").
Proof.
  intros G. unfold readiness, require_GET. rewrite G.
  rewrite String.eqb_refl. cbn [negb].
  destruct (select_1 (connection sv)) as [selected d'].
  destruct (cache_set "health_check" (PStr "ok") 10%Z (cache sv))
    as [[u|e] c1] eqn:S.
  - destruct (cache_get "health_check" c1) as [[v|e] c2] eqn:R.
    + eexists _, _, (py_eq_str v "ok"). split; [reflexivity |].
      rewrite py_eq_str_false. split.
      * intros N. exists u, c1, v, c2. auto.
      * intros [u0 [c0 [v0 [c3 [E1 [E2 N]]]]]].
        injection E1 as <- <-. rewrite R in E2. now injection E2 as <- <-.
    + eexists _, _, true. split; [reflexivity |]. split; [discriminate |].
      intros [u0 [c0 [v0 [c3 [E1 [E2 N]]]]]].
      injection E1 as <- <-. rewrite R in E2. discriminate.
  - eexists _, _, true. split; [reflexivity |]. split; [discriminate |].
    intros [u0 [c0 [v0 [c3 [E1 _]]]]]. discriminate.
Qed.

(** Both probes answer any method but GET with 405 and leave the database
    connection and the cache untouched; the liveness probe answers a GET
    with 200 without touching them either. *)
Theorem probes_require_get (request : http_request)
        (sv : services database cache_store) :
  (method request <> "GET" ->
   liveness database cache_store request sv = (HttpResponseNotAllowed, sv)
   /\ readiness database cache_store select_1 cache_set cache_get request sv
      = (HttpResponseNotAllowed, sv))
  /\ (method request = "GET" ->
      liveness database cache_store request sv
      = (JsonResponse (PDict [("status", PStr "ok");
                              ("service", PStr "django-api")]) 200%Z, sv)).
Proof.
  unfold liveness, readiness, require_GET. split.
  - intros N. destruct (String.eqb_spec (method request) "GET");
      [contradiction | split; reflexivity].
  - intros ->. reflexivity.
Qed.

End HealthProperties.

(** * The further properties at the sample data *)

Lemma operation_check_witness :
  terraform_destroy !! "operation" = Some (PStr "destroy")
  /\ validate_request no_environ terraform_destroy
     = Ok (false,
           "Operation not allowed: destroy. Allowed: ['build', 'deploy', 'plan', 'apply']").
Proof.
  split; [vm_compute; reflexivity |].
  apply (operation_check no_environ terraform_destroy "terraform_runner"
           (PStr "destroy"));
    try (vm_compute; reflexivity).
  cbn. auto.
Defined.

Lemma validate_accepts_witness :
  acceptable no_environ terraform_apply
  /\ ~ acceptable no_environ terraform_destroy.
Proof.
  split.
  - apply (proj1 (validate_accepts no_environ terraform_apply)).
    vm_compute. reflexivity.
  - intros A. apply (proj2 (validate_accepts no_environ terraform_destroy)) in A.
    vm_compute in A. discriminate.
Defined.

Lemma validate_reason_witness :
  (true = true <-> "" = "")
  /\ (false = true
      <-> "App not allowed: evil. Allowed apps: ['cineos', 'photographos', 'createos', 'lightwave-backend']" = "").
Proof.
  split.
  - apply (validate_reason no_environ terraform_apply). vm_compute. reflexivity.
  - apply (validate_reason no_environ build_evil). vm_compute. reflexivity.
Defined.

Lemma validate_raises_witness :
  (exists e, validate_request no_environ list_kind = Raise e)
  /\ ~ (exists e, validate_request no_environ unknown_kind_bad_app = Raise e).
Proof.
  split.
  - apply (proj2 (validate_raises no_environ list_kind)).
    exists (PList []). split; vm_compute; reflexivity.
  - intros R. apply (proj1 (validate_raises no_environ unknown_kind_bad_app)) in R.
    destruct R as [v [E H]]. vm_compute in E. injection E as <-. discriminate.
Defined.

Lemma refusal_is_400_witness :
  handler no_environ nat starting terraform_destroy PNone fresh
  = (Ok (response 400
           [("success", PBool false);
            ("error",
              PStr "Operation not allowed: destroy. Allowed: ['build', 'deploy', 'plan', 'apply']")]),
     fresh).
Proof.
  apply (proj1 (refusal_is_400 no_environ nat starting terraform_destroy
                  PNone fresh)).
  vm_compute. reflexivity.
Defined.

Lemma accepted_calls_once_witness :
  length (calls (snd (handler no_environ nat failing terraform_apply
                        PNone fresh))) = 1
  /\ ecs (snd (handler no_environ nat failing terraform_apply PNone fresh)) = 1.
Proof.
  destruct (accepted_calls_once no_environ nat failing terraform_apply PNone
              fresh "" ltac:(vm_compute; reflexivity))
    as [k [arn [_ [_ H]]]].
  cbv zeta in H. rewrite H. split; reflexivity.
Defined.

Lemma unaccepted_never_calls_witness :
  snd (handler no_environ nat starting list_kind PNone fresh) = fresh.
Proof.
  apply unaccepted_never_calls. intros msg. vm_compute. discriminate.
Defined.

Lemma transport_failure_witness :
  validate_request no_environ terraform_apply = Ok (true, "")
  /\ handler no_environ nat failing terraform_apply PNone fresh
     = (Ok (response 500 [("success", PBool false);
                          ("error", PStr "AccessDeniedException")]),
        called fresh
          (run_task_kwargs no_environ terraform_apply (PStr "")
             (build_container_overrides terraform_apply)) 1).
Proof.
  assert (V : validate_request no_environ terraform_apply = Ok (true, ""))
    by (vm_compute; reflexivity).
  assert (E : terraform_apply !! "task_type" = Some (PStr "terraform_runner"))
    by (vm_compute; reflexivity).
  split; [exact V |].
  exact (transport_failure no_environ nat failing terraform_apply PNone fresh
           "" "terraform_runner" ""
           (PyExn "ClientError" "AccessDeniedException") 1
           V E eq_refl eq_refl).
Defined.

Lemma first_task_reported_witness :
  validate_request no_environ terraform_apply = Ok (true, "")
  /\ exists id,
      trailing_segment "arn:aws:ecs:eu-west-1:42:task/runners/0f3a" id
      /\ handler no_environ nat starting terraform_apply PNone fresh
         = (Ok (response 200
                  [("success", PBool true);
                   ("task_arn",
                     PStr "arn:aws:ecs:eu-west-1:42:task/runners/0f3a");
                   ("task_id", PStr id);
                   ("cluster_arn", PStr "");
                   ("status", PStr "PENDING");
                   ("message", PStr ("ECS task started: " +:+ id))]),
            called fresh
              (run_task_kwargs no_environ terraform_apply (PStr "")
                 (build_container_overrides terraform_apply)) 1).
Proof.
  assert (V : validate_request no_environ terraform_apply = Ok (true, ""))
    by (vm_compute; reflexivity).
  assert (E : terraform_apply !! "task_type" = Some (PStr "terraform_runner"))
    by (vm_compute; reflexivity).
  split; [exact V |].
  exact (first_task_reported no_environ nat starting terraform_apply PNone
           fresh "" "terraform_runner" "" started
           {| taskArn := Some "arn:aws:ecs:eu-west-1:42:task/runners/0f3a";
              lastStatus := None |} [] 1
           V E eq_refl eq_refl eq_refl).
Defined.

Lemma accepted_has_override_witness :
  exists override name,
    build_container_overrides deploy_full = [override]
    /\ member "name" override = Some (PStr name)
    /\ In name ["kaniko"; "terraform"; "deployer"].
Proof.
  apply (accepted_has_override no_environ deploy_full "").
  vm_compute. reflexivity.
Defined.

Lemma builder_reads_kind_fields_witness :
  build_container_overrides terraform_apply
  = build_container_overrides terraform_apply_tagged.
Proof.
  apply (proj1 (builder_reads_kind_fields terraform_apply
                  terraform_apply_tagged ltac:(vm_compute; reflexivity)));
    vm_compute; reflexivity.
Defined.

Lemma configuration_lists_witness :
  SUBNET_IDS no_environ = [""]
  /\ Text.join "," (ALLOWED_APPS no_environ)
     = "cineos,photographos,createos,lightwave-backend".
Proof.
  split.
  - apply (proj2 (proj2 (proj2 (configuration_lists no_environ)))).
    vm_compute. reflexivity.
  - exact (proj1 (proj2 (proj1 (configuration_lists no_environ)))).
Defined.

Lemma empty_allow_list_refuses_witness :
  empty_allow_list !! "ALLOWED_APPS" = Some ""
  /\ validate_request empty_allow_list deploy_full
     = Ok (false, "App not allowed: cineos. Allowed apps: ['']").
Proof.
  split; [vm_compute; reflexivity |].
  apply (empty_allow_list_refuses empty_allow_list deploy_full "app_deployer"
           (PStr "cineos"));
    try (vm_compute; reflexivity).
  cbn. auto.
Defined.

Lemma cleanup_count_witness :
  exists lines,
    two_page_listing "logs" = List.map Ok (Cleanup.fetched (two_page_listing "logs"))
    /\ Cleanup.requests
         (snd (Cleanup.delete_all_versions nat any_profile two_page_listing
                 deleting "logs" "dev" untouched))
       = ([] ++ Cleanup.plan "logs" (Cleanup.fetched (two_page_listing "logs")))%list
    /\ 3 = length (Cleanup.plan "logs" (Cleanup.fetched (two_page_listing "logs")))
    /\ Cleanup.stdout
         (snd (Cleanup.delete_all_versions nat any_profile two_page_listing
                 deleting "logs" "dev" untouched))
       = ([] ++ Cleanup.Deleting "logs" :: lines ++ [Cleanup.Summary 3])%list
    /\ forallb Cleanup.is_deletion lines = true
    /\ length lines = 3.
Proof.
  apply (cleanup_count nat any_profile two_page_listing deleting
           "logs" "dev" untouched).
  vm_compute. reflexivity.
Defined.

Lemma cleanup_requests_witness :
  fst (Cleanup.delete_all_versions nat any_profile two_page_listing locked_2
         "logs" "dev" untouched)
  = Raise (PyExn "ClientError" "AccessDenied")
  /\ exists done lines,
      Cleanup.requests
        (snd (Cleanup.delete_all_versions nat any_profile two_page_listing
                locked_2 "logs" "dev" untouched))
      = ([] ++ done)%list
      /\ done `prefix_of` Cleanup.plan "logs"
                            (Cleanup.fetched (two_page_listing "logs"))
      /\ forallb Cleanup.is_deletion lines = true.
Proof.
  split; [vm_compute; reflexivity |].
  destruct (cleanup_requests nat any_profile two_page_listing locked_2
              "logs" "dev" untouched _ _ (surjective_pairing _))
    as [done [lines [Hr [Hp [Hl _]]]]].
  exists done, lines. split; [exact Hr | split; [exact Hp | exact Hl]].
Defined.


Lemma readiness_follows_database_witness :
  Health.method get_request = "GET"
  /\ exists cache_ok,
      fst (Health.readiness unit (option pyval) database_down
             unreachable_set storing_get get_request idle)
      = Health.JsonResponse
          (PDict [("status", PStr "unhealthy");
                  ("checks", PDict [("database", PBool false);
                                    ("cache", PBool cache_ok)])])
          503%Z.
Proof.
  split; [reflexivity |].
  apply (readiness_follows_database unit (option pyval) database_down
           unreachable_set storing_get get_request idle).
  reflexivity.
Defined.

Lemma readiness_cache_flag_witness :
  exists status database_ok cache_ok,
    Health.data
      (fst (Health.readiness unit (option pyval) database_up forgetting_set
              storing_get get_request idle))
    = Some (PDict [("status", status);
                   ("checks", PDict [("database", PBool database_ok);
                                     ("cache", PBool cache_ok)])])
    /\ (cache_ok = false
        <-> exists u c1 v c2,
            forgetting_set "health_check" (PStr "ok") 10%Z (Health.cache idle)
            = (Ok u, c1)
            /\ storing_get "health_check" c1 = (Ok v, c2)
            /\ v <> PStr "ok").
Proof.
  apply (readiness_cache_flag unit (option pyval) database_up forgetting_set
           storing_get get_request idle).
  reflexivity.
Defined.

Lemma probes_require_get_witness :
  Health.readiness unit (option pyval) database_up storing_set storing_get
    post_request idle
  = (Health.HttpResponseNotAllowed, idle).
Proof.
  apply (proj1 (probes_require_get unit (option pyval) database_up storing_set
                  storing_get post_request idle)).
  cbn. discriminate.
Defined.

(** The probes and the script at the sample data. *)
Example readiness_demo :
  fst (Health.readiness unit (option pyval) database_up forgetting_set
         storing_get get_request idle)
  = Health.JsonResponse
      (PDict [("status", PStr "healthy");
              ("checks", PDict [("database", PBool true);
                                ("cache", PBool false)])])
      200%Z
  /\ fst (Health.readiness unit (option pyval) database_down unreachable_set
            storing_get get_request idle)
     = Health.JsonResponse
         (PDict [("status", PStr "unhealthy");
                 ("checks", PDict [("database", PBool false);
                                   ("cache", PBool true)])])
         503%Z.
Proof. split; reflexivity. Qed.

Example cleanup_demo :
  Cleanup.main nat any_profile two_page_listing locked_2
    ["cleanup-s3-bucket.py"; "logs"; "dev"] untouched
  = (1%Z,
     {| Cleanup.s3 := 1;
        Cleanup.requests := [("logs", version_a1); ("logs", version_a2)];
        Cleanup.stdout := [Cleanup.Deleting "logs";
                           Cleanup.DeletedVersion "a" "1";
                           Cleanup.Error "AccessDenied"] |}).
Proof. vm_compute. reflexivity. Qed.
